(** * Recording session control of dusk-recording

    A shallow embedding of the session logic of the recorder scripts

      - [scripts/screenshot_recorder.py]  (module [ScreenshotRecorder])
      - [scripts/headless_recorder.py]    (module [HeadlessRecorder])
      - [docker/record_test.py]           (modules [RecordTest], [OutputNames])
      - [docker/entrypoint.py]            (module [Entrypoint])
      - [docker/dusk_record.py]           (module [DuskRecord])

    over one model of the operating system they run on (module [Sys]):
    a file system, a process table and the log of calls made on children.
    External programs (ffmpeg, Xvfb, the browser's debugging socket, the
    test run) are inputs of the model: every call that consults one takes
    the outcome it observes as an argument, or finds the program's
    behaviour in the machine.  Printed lines are kept without the values
    interpolated into them where these play no part.  Threads are not
    modelled: the capture loop of the screenshot recorder takes its turns
    as events between requests. *)

From Stdlib Require Import ZArith Lia String Ascii DecimalString DecimalNat.
From Stdlib.Strings Require Import Byte.
From stdpp Require Import base gmap strings list fin_maps.

Local Open Scope string_scope.

(** ** Python values shared by the scripts *)

Definition bytes := list byte.

(** Exceptions the scripts raise, catch or let escape. *)
Inductive exn :=
  | FileNotFoundError      (* Popen / subprocess.run: executable missing *)
  | RuntimeError (msg : string)
  | ImportError (msg : string)
  | ConnectionError        (* websocket: refused, or closed under us *)
  | AttributeError
  | TypeError
  | ZeroDivisionError
  | ValueError
  | IndexError
  | UnicodeDecodeError     (* bytes.decode() of what is not UTF-8 *)
  | KeyboardInterrupt      (* Python's default SIGINT handler *)
  | SystemExit (code : Z). (* sys.exit(code) *)

Inductive res (A : Type) :=
  | Ok (a : A)
  | Raise (e : exn).
Arguments Ok {A} a.
Arguments Raise {A} e.

(** ** The operating system *)

Module Sys.

(** *** Paths and files *)

Definition ends_with_slash (s : string) : bool :=
  match rev (list_ascii_of_string s) with
  | c :: _ => bool_decide (c = "/"%char)
  | [] => false
  end.

(** [os.path.join a b] for a relative [b]. *)
Definition path_join (a b : string) : string :=
  if bool_decide (a = "") then b
  else if ends_with_slash a then a +:+ b
  else a +:+ "/" +:+ b.

(** [p] lies strictly below directory [d].  The test is on the text of
    the two paths, which are not brought to normal form first: it is
    containment in the tree for paths in normal form. *)
Definition is_under (d p : string) : bool :=
  String.prefix (path_join d "") p
  && (negb (String.eqb p (path_join d "")) && negb (String.eqb p d)).

Definition is_slash (c : ascii) : bool := bool_decide (c = "/"%char).

Fixpoint drop_while (f : ascii → bool) (l : list ascii) : list ascii :=
  match l with
  | [] => []
  | c :: l' => if f c then drop_while f l' else l
  end.

(** [s.split(sep)] for a separator of one character. *)
Fixpoint split_from (sep : ascii) (cur cs : list ascii) : list string :=
  match cs with
  | [] => [string_of_list_ascii (rev cur)]
  | c :: cs' =>
      if bool_decide (c = sep)
      then string_of_list_ascii (rev cur) :: split_from sep [] cs'
      else split_from sep (c :: cur) cs'
  end.

Definition str_split (sep : ascii) (s : string) : list string :=
  split_from sep [] (list_ascii_of_string s).

(** [os.path.dirname p]: the head up to the last separator, with trailing
    separators stripped unless the head consists of separators only. *)
Definition dirname (p : string) : string :=
  let head := drop_while (λ c, negb (is_slash c)) (rev (list_ascii_of_string p)) in
  string_of_list_ascii
    (rev (if forallb is_slash head then head else drop_while is_slash head)).

(** [Path(p).parent] *)
Definition parent (p : string) : string :=
  if bool_decide (dirname p = "") then "." else dirname p.

Record FS := mkFS {
  dirs : gset string;          (* directories that exist *)
  files : gmap string bytes    (* regular files, by full path *)
}.

Definition empty_fs : FS := mkFS ∅ ∅.

(** The files and the directories below [d]. *)
Definition files_under (d : string) (fs : FS) : gmap string bytes :=
  filter (λ kv, is_under d kv.1 = true) (files fs).
Definition dirs_under (d : string) (fs : FS) : gset string :=
  filter (λ q, is_under d q = true) (dirs fs).

(** [os.path.exists(p)]: a file, a directory that was made, or a
    directory that is there because something lies below it. *)
Definition path_exists (fs : FS) (p : string) : bool :=
  (bool_decide (p ∈ dirs fs) || bool_decide (is_Some (files fs !! p)))
  || (negb (bool_decide (files_under p fs = ∅))
      || negb (bool_decide (dirs_under p fs = ∅))).

(** [os.makedirs(d, exist_ok=True)], [Path(d).mkdir(parents=True, exist_ok=True)] *)
Definition makedirs (d : string) (fs : FS) : FS :=
  mkFS ({[ d ]} ∪ dirs fs) (files fs).

(** [shutil.rmtree(d)]: the directory and everything below it. *)
Definition rmtree (d : string) (fs : FS) : FS :=
  mkFS (filter (λ q, q ≠ d ∧ is_under d q = false) (dirs fs))
       (filter (λ kv, is_under d kv.1 = false) (files fs)).

(** [open(p, 'wb').write(data)] *)
Definition write_file (p : string) (data : bytes) (fs : FS) : FS :=
  mkFS (dirs fs) (<[ p := data ]> (files fs)).

(** [shutil.move(src, dst)] of a regular file. *)
Definition move (src dst : string) (fs : FS) : FS :=
  match files fs !! src with
  | Some c => mkFS (dirs fs) (<[ dst := c ]> (delete src (files fs)))
  | None => fs
  end.

(** [os.remove(p)] *)
Definition remove (p : string) (fs : FS) : FS :=
  mkFS (dirs fs) (delete p (files fs)).

(** Nothing lies below [d]. *)
Definition emptied (d : string) (fs : FS) : Prop :=
  ∀ p, is_under d p = true → (p ∉ dirs fs) ∧ files fs !! p = None.

(** [d] is gone, with everything below it. *)
Definition purged (d : string) (fs : FS) : Prop :=
  (d ∉ dirs fs) ∧ emptied d fs.

(** *** Processes *)

Inductive signal := SIGINT | SIGTERM | SIGKILL.

Inductive pstate :=
  | Running
  | Stopping   (* asked to stop, not yet gone *)
  | Exited.

(** A child process.  [grace] is how the program reacts to a request to
    stop (SIGINT, SIGTERM, or ffmpeg's [q] on stdin): [Some d] if it exits
    [d] seconds later, [None] if it ignores the request.  There is no
    clock: a child that was asked to stop is [Stopping] until somebody
    waits for it, and a [time.sleep] changes nothing.  SIGKILL cannot be
    ignored, and a child counts as [Exited] from the moment it is sent:
    the instant in which [poll()] can still return [None] after a
    [kill()] that no [wait()] follows is not modelled. *)
Record proc := mkProc {
  pname : string;
  pst : pstate;
  grace : option nat
}.

Definition alive (p : proc) : bool :=
  match pst p with Exited => false | _ => true end.

Definition request_stop (p : proc) : proc :=
  match pst p with
  | Running => mkProc (pname p) Stopping (grace p)
  | _ => p
  end.

Definition deliver (s : signal) (p : proc) : proc :=
  match s with
  | SIGKILL => mkProc (pname p) Exited (grace p)
  | _ => request_stop p
  end.

(** Does [wait(timeout)] see the process exit?  [None] waits for ever,
    which the scripts only do after a SIGKILL. *)
Definition exits_within (timeout : option nat) (p : proc) : bool :=
  match pst p with
  | Exited => true
  | Stopping =>
      match grace p, timeout with
      | Some d, Some t => Nat.leb d t
      | Some _, None => true
      | None, _ => false
      end
  | Running => false
  end.

Definition reap (p : proc) : proc := mkProc (pname p) Exited (grace p).

(** An installed executable: whether it survives its first seconds, and
    how it reacts to a request to stop. *)
Record program := mkProgram {
  starts : bool;
  stop_after : option nat
}.

(** System calls issued on children, in the order issued. *)
Inductive call :=
  | Spawn (name : string) (pid : nat)
  | SendSignal (pid : nat) (s : signal)
  | WriteStdin (pid : nat) (data : string)
  | Wait (pid : nat) (timeout : option nat).

(** The machine a script runs on.  The process with pid [S i] is
    [procs !! i]; no process has pid 0. *)
Record machine := mkMachine {
  installed : gmap string program;
  procs : list proc;
  calls : list call;
  disk : FS;
  out : list string
}.

Definition set_procs (ps : list proc) (m : machine) : machine :=
  mkMachine (installed m) ps (calls m) (disk m) (out m).
Definition log (c : call) (m : machine) : machine :=
  mkMachine (installed m) (procs m) (calls m ++ [c]) (disk m) (out m).
Definition on_disk (f : FS → FS) (m : machine) : machine :=
  mkMachine (installed m) (procs m) (calls m) (f (disk m)) (out m).
Definition echo (line : string) (m : machine) : machine :=
  mkMachine (installed m) (procs m) (calls m) (disk m) (out m ++ [line]).

(** [subprocess.Popen([name, ...])] followed by the script's start-up
    sleep: a program that does not survive its start is already gone. *)
Definition popen (name : string) (m : machine) : machine * res nat :=
  match installed m !! name with
  | None => (m, Raise FileNotFoundError)
  | Some prog =>
      let pid := S (length (procs m)) in
      let p := mkProc name (if starts prog then Running else Exited) (stop_after prog) in
      (log (Spawn name pid) (set_procs (procs m ++ [p]) m), Ok pid)
  end.

Definition proc_at (pid : nat) (m : machine) : option proc :=
  match pid with
  | O => None
  | S i => procs m !! i
  end.

(** [proc.poll() is None] *)
Definition poll_is_none (pid : nat) (m : machine) : bool :=
  match proc_at pid m with
  | Some p => alive p
  | None => false
  end.

Definition update_proc (pid : nat) (f : proc → proc) (m : machine) : machine :=
  match proc_at pid m with
  | Some p => set_procs (<[ pred pid := f p ]> (procs m)) m
  | None => m
  end.

(** [proc.send_signal(s)]; [terminate()] is SIGTERM, [kill()] is SIGKILL. *)
Definition send_signal (pid : nat) (s : signal) (m : machine) : machine :=
  update_proc pid (deliver s) (log (SendSignal pid s) m).

(** [proc.stdin.write(data); proc.stdin.flush()]: broken pipe if the
    child is gone. *)
Definition write_stdin (pid : nat) (data : string) (m : machine) : machine * bool :=
  let m1 := log (WriteStdin pid data) m in
  if poll_is_none pid m then (update_proc pid request_stop m1, true) else (m1, false).

(** [proc.wait(timeout)]: [true] if the child is gone in time, [false]
    for [TimeoutExpired]. *)
Definition wait (pid : nat) (timeout : option nat) (m : machine) : machine * bool :=
  let m1 := log (Wait pid timeout) m in
  match proc_at pid m with
  | Some p => if exits_within timeout p then (update_proc pid reap m1, true) else (m1, false)
  | None => (m1, true)
  end.

(** No child of the machine is left alive. *)
Definition none_alive (m : machine) : Prop := Forall (λ p, alive p = false) (procs m).

End Sys.

Export Sys.

(** ** scripts/screenshot_recorder.py *)

Module ScreenshotRecorder.

(** *** Frame file names *)

Fixpoint zeros (k : nat) : string :=
  match k with
  | O => ""
  | S k' => String "0" (zeros k')
  end.

Definition decimal (n : nat) : string := NilEmpty.string_of_uint (Nat.to_uint n).

(** [f'{n:06d}'] *)
Definition fmt_06d (n : nat) : string :=
  zeros (6 - String.length (decimal n)) +:+ decimal n.

(** [f'frame_{n:06d}.png'] *)
Definition frame_name (n : nat) : string := "frame_" +:+ fmt_06d n +:+ ".png".

(** *** JSON values, as [json.loads] returns them (floats left out) *)

#[local] Set Warnings "-register-all".
Inductive json :=
  | JNull
  | JBool (b : bool)
  | JInt (z : Z)
  | JStr (s : string)
  | JList (l : list json)
  | JDict (kv : list (string * json)).

(** Python truthiness, as tested by [if not debugger_url]. *)
Definition truthy (j : json) : bool :=
  match j with
  | JNull => false
  | JBool b => b
  | JInt z => negb (Z.eqb z 0)
  | JStr s => negb (String.eqb s "")
  | JList l => match l with [] => false | _ => true end
  | JDict kv => match kv with [] => false | _ => true end
  end.

(** [data.get(k, default)] on the items of a dict. *)
Fixpoint dict_get (kv : list (string * json)) (k : string) (default : json) : json :=
  match kv with
  | [] => default
  | (k', v) :: kv' => if String.eqb k' k then v else dict_get kv' k default
  end.

(** [1000 // fps] *)
Definition interval_of (fps : json) : res Z :=
  match fps with
  | JInt z => if Z.eqb z 0 then Raise ZeroDivisionError else Ok (1000 / z)%Z
  | JBool true => Ok 1000%Z
  | JBool false => Raise ZeroDivisionError
  | _ => Raise TypeError
  end.

(** *** The recorder object *)

Inductive websocket := WsOpen | WsClosed.

Record recorder := mkRecorder {
  cdp_url : option string;
  output_dir : string;
  fps : json;
  frames : list bytes;
  recording : bool;
  frame_count : nat;
  ws : option websocket
}.

(** [ScreenshotRecorder(fps=fps)] *)
Definition new_recorder (fps : json) : recorder :=
  mkRecorder None "/tmp/dusk-screenshots" fps [] false 0 None.

Definition set_recording (b : bool) (r : recorder) : recorder :=
  mkRecorder (cdp_url r) (output_dir r) (fps r) (frames r) b (frame_count r) (ws r).
Definition set_frame_count (n : nat) (r : recorder) : recorder :=
  mkRecorder (cdp_url r) (output_dir r) (fps r) (frames r) (recording r) n (ws r).
Definition set_ws (w : option websocket) (r : recorder) : recorder :=
  mkRecorder (cdp_url r) (output_dir r) (fps r) (frames r) (recording r) (frame_count r) w.

(** What the browser answers to one [Page.captureScreenshot]. *)
Inductive cdp_reply :=
  | Screenshot (data : bytes)   (* result.data, base64-decoded *)
  | NoData                      (* a response without result.data *)
  | CdpFailure (e : exn).       (* send, recv or decoding raised *)

(** What one ffmpeg run does: the executable may be missing; otherwise it
    exits with [returncode], having written [video] (if any) to its output
    path and [stderr] to its error stream. *)
Inductive ffmpeg_run :=
  | FfmpegMissing
  | FfmpegExit (returncode : Z) (video : option bytes) (stderr : string).

(** The encode commands issued, for the record. *)
Record encode_cmd := mkEncode {
  enc_framerate : json;
  enc_input : string;
  enc_output : string
}.

(** The part of the machine a recorder method can touch. *)
Record world := mkWorld {
  fs : FS;
  stdout : list string;
  encodes : list encode_cmd
}.

Definition with_fs (f : FS → FS) (w : world) : world :=
  mkWorld (f (fs w)) (stdout w) (encodes w).
Definition print (line : string) (w : world) : world :=
  mkWorld (fs w) (stdout w ++ [line]) (encodes w).
Definition log_encode (c : encode_cmd) (w : world) : world :=
  mkWorld (fs w) (stdout w) (encodes w ++ [c]).

(** [connect_cdp]: the outcome of [websocket.create_connection] is [conn]. *)
Definition connect_cdp (has_websocket : bool) (conn : res unit) (r : recorder)
  : res recorder :=
  if negb has_websocket
  then Raise (ImportError "websocket-client required: pip install websocket-client")
  else match conn with
       | Ok _ => Ok (set_ws (Some WsOpen) r)
       | Raise e => Raise e
       end.

Definition take_screenshot_cdp (r : recorder) (o : cdp_reply) : res (option bytes) :=
  match ws r with
  | None => Ok None
  | Some WsClosed => Raise ConnectionError
  | Some WsOpen =>
      match o with
      | Screenshot d => Ok (Some d)
      | NoData => Ok None
      | CdpFailure e => Raise e
      end
  end.

Definition frame_path (r : recorder) : string :=
  path_join (output_dir r) (frame_name (frame_count r)).

Definition save_frame (frame_data : bytes) (r : recorder) (w : world)
  : recorder * world :=
  let w1 := with_fs (makedirs (output_dir r)) w in
  let w2 := with_fs (write_file (frame_path r) frame_data) w1 in
  (set_frame_count (frame_count r + 1) r, w2).

(** [start_recording], up to the start of the capture thread. *)
Definition start_recording (r : recorder) (w : world) : recorder * world :=
  let r1 := set_frame_count 0 (set_recording true r) in
  let w1 := if path_exists (fs w) (output_dir r)
            then with_fs (rmtree (output_dir r)) w else w in
  (r1, with_fs (makedirs (output_dir r)) w1).

(** [if frame: self.save_frame(frame)] *)
Definition save_if_frame (frame : option bytes) (r : recorder) (w : world)
  : recorder * world :=
  match frame with
  | Some (b :: d) => save_frame (b :: d) r w
  | _ => (r, w)
  end.

(** One turn of [capture_loop]; when [recording] is off the loop is over. *)
Definition capture_step (o : cdp_reply) (rw : recorder * world) : recorder * world :=
  let '(r, w) := rw in
  if recording r then
    match take_screenshot_cdp r o with
    | Ok frame => save_if_frame frame r w
    | Raise e => (r, print "Capture error" w)
    end
  else (r, w).

Definition capture_loop (os : list cdp_reply) (rw : recorder * world)
  : recorder * world :=
  fold_left (λ acc o, capture_step o acc) os rw.

Definition create_video (output_file : json) (run : ffmpeg_run)
    (r : recorder) (w : world) : world * res (option string) :=
  if Nat.ltb (frame_count r) 2 then
    (print "Not enough frames captured" w, Ok None)
  else
    match output_file with
    | JStr out =>
        let w1 := with_fs (makedirs (parent out)) w in
        let cmd := mkEncode (fps r) (path_join (output_dir r) "frame_%06d.png") out in
        let w2 := log_encode cmd w1 in
        match run with
        | FfmpegMissing => (w2, Raise FileNotFoundError)
        | FfmpegExit rc video err =>
            let w3 := match video with
                      | Some v => with_fs (write_file out v) w2
                      | None => w2
                      end in
            let w4 := with_fs (rmtree (output_dir r)) w3 in
            if Z.eqb rc 0
            then (print ("Video created: " +:+ out) w4, Ok (Some out))
            else (print ("ffmpeg error: " +:+ err) w4, Ok None)
        end
    | _ => (w, Raise TypeError)   (* Path(output_file) of a non-string *)
    end.

Definition close_ws (r : recorder) : recorder :=
  match ws r with
  | Some _ => set_ws (Some WsClosed) r
  | None => r
  end.

Definition stop_recording (output_file : json) (run : ffmpeg_run)
    (r : recorder) (w : world) : recorder * world * res (option string) :=
  let r1 := close_ws (set_recording false r) in
  let '(w1, out) := create_video output_file run r1 w in
  (r1, w1, out).

(** *** The HTTP control server *)

(** The request body once it has been read and decoded: absent (or
    empty), rejected by [json.loads], or parsed. *)
Inductive body :=
  | NoBody
  | Malformed (raw : string)
  | Parsed (j : json).

(** [data = json.loads(body) if body else {}], with [except: data = {}] *)
Definition data_of (b : body) : json :=
  match b with
  | NoBody => JDict []
  | Malformed _ => JDict []
  | Parsed j => j
  end.

(** What the handler sends back; [Raised] when an exception leaves
    [do_POST] (the connection is dropped without a response). *)
Inductive reply :=
  | Json200 (fields : list (string * json))
  | Plain200
  | Error (code : Z) (msg : string)
  | Raised (e : exn).

(** What the outside world does during one request. *)
Record env := mkEnv {
  HAS_WEBSOCKET : bool;
  connection : res unit;     (* websocket.create_connection *)
  screenshot : cdp_reply;    (* the browser, if asked for a frame *)
  ffmpeg : ffmpeg_run        (* the encoder, if run *)
}.

(** The server process: every recorder object created so far (a recorder
    stays alive while its capture thread or the class attribute refers to
    it), the two class attributes of [RecorderHTTPHandler], and the world. *)
Record server := mkServer {
  heap : list recorder;
  cls_recorder : option nat;    (* RecorderHTTPHandler.recorder *)
  cls_output_file : json;       (* RecorderHTTPHandler.output_file *)
  wld : world
}.

Definition init : server := mkServer [] None JNull (mkWorld empty_fs [] []).

Definition store (a : nat) (r : recorder) (s : server) : server :=
  mkServer (<[ a := r ]> (heap s)) (cls_recorder s) (cls_output_file s) (wld s).
Definition with_world (w : world) (s : server) : server :=
  mkServer (heap s) (cls_recorder s) (cls_output_file s) w.

Definition post_start (data : json) (e : env) (s : server) : server * reply :=
  match data with
  | JDict kv =>
      let debugger_url := dict_get kv "debugger_url" JNull in
      let output := dict_get kv "output" (JStr "/tmp/dusk-recording.mp4") in
      let fps := dict_get kv "fps" (JInt 10) in
      if negb (truthy debugger_url) then (s, Error 400 "debugger_url required")
      else
        let a := length (heap s) in
        let s1 := mkServer (heap s ++ [new_recorder fps]) (Some a) output (wld s) in
        let conn := match debugger_url with
                    | JStr _ => connection e
                    | _ => Raise TypeError
                    end in
        match connect_cdp (HAS_WEBSOCKET e) conn (new_recorder fps) with
        | Raise x => (s1, Raised x)
        | Ok r1 =>
            let s2 := store a r1 s1 in
            match interval_of fps with
            | Raise x => (s2, Raised x)
            | Ok _ =>
                let '(r2, w2) := start_recording r1 (wld s2) in
                (with_world w2 (store a r2 s2),
                 Json200 [("status", JStr "recording")])
            end
        end
  | _ => (s, Raised AttributeError)   (* data.get on a non-dict *)
  end.

Definition post_frame (e : env) (s : server) : server * reply :=
  match cls_recorder s with
  | Some a =>
      match heap s !! a with
      | Some r =>
          match ws r with
          | Some _ =>
              match take_screenshot_cdp r (screenshot e) with
              | Ok frame =>
                  let '(r1, w1) := save_if_frame frame r (wld s) in
                  (with_world w1 (store a r1 s), Plain200)
              | Raise x => (s, Raised x)
              end
          | None => (s, Plain200)
          end
      | None => (s, Plain200)
      end
  | None => (s, Plain200)
  end.

Definition json_of_output (o : option string) : json :=
  match o with
  | Some p => JStr p
  | None => JNull
  end.

Definition post_stop (e : env) (s : server) : server * reply :=
  match cls_recorder s with
  | Some a =>
      match heap s !! a with
      | Some r =>
          let '(r1, w1, out) := stop_recording (cls_output_file s) (ffmpeg e) r (wld s) in
          let s1 := with_world w1 (store a r1 s) in
          match out with
          | Ok output =>
              (s1, Json200 [("status", JStr "stopped"); ("output", json_of_output output)])
          | Raise x => (s1, Raised x)
          end
      | None => (s, Error 400 "No recording in progress")
      end
  | None => (s, Error 400 "No recording in progress")
  end.

(** [do_POST] from the [try] around [json.loads] on. *)
Definition do_POST (path : string) (b : body) (e : env) (s : server)
  : server * reply :=
  let data := data_of b in
  if String.eqb path "/start" then post_start data e s
  else if String.eqb path "/frame" then post_frame e s
  else if String.eqb path "/stop" then post_stop e s
  else (s, Error 404 "Not found").

(** *** A request as it arrives

    [do_POST] above is the handler from its [try] on, for a path and a
    body that have been read.  Its first three lines read them from the
    request, and each of them can raise before any path is looked at.
    The dispatch on the method is that of [BaseHTTPRequestHandler], of
    which the handler defines [do_POST] only. *)







(** What can happen to the server: a request that could be read is
    handled, or the capture thread of the recorder at address [a] takes
    its next turn. *)
Inductive event :=
  | POST (path : string) (b : body) (e : env)
  | Tick (a : nat) (o : cdp_reply).

Definition step (s : server) (ev : event) : server * option reply :=
  match ev with
  | POST path b e => let '(s', r) := do_POST path b e s in (s', Some r)
  | Tick a o =>
      match heap s !! a with
      | Some r =>
          let '(r1, w1) := capture_step o (r, wld s) in
          (with_world w1 (store a r1 s), None)
      | None => (s, None)
      end
  end.

(** Run a sequence of events; the replies come back in order. *)
Fixpoint run (evs : list event) (s : server) : server * list reply :=
  match evs with
  | [] => (s, [])
  | ev :: evs' =>
      let '(s1, r) := step s ev in
      let '(s2, rs) := run evs' s1 in
      (s2, match r with Some x => x :: rs | None => rs end)
  end.


End ScreenshotRecorder.

(** ** How a script ends *)

Inductive exit :=
  | Exit (code : Z)          (* sys.exit(code), or falling off the end: code 0 *)
  | Traceback (e : exn)      (* an exception nobody caught *)
  | KilledBy (s : signal).   (* the signal's default action: no Python code runs *)

(** What Python does with a signal for which the script installed no
    handler: SIGINT raises [KeyboardInterrupt] in the main thread, the
    others end the process on the spot. *)
Inductive disposition :=
  | RaiseInMain (e : exn)
  | Die.

Definition python_default (s : signal) : disposition :=
  match s with
  | SIGINT => RaiseInMain KeyboardInterrupt
  | _ => Die
  end.

(** ** docker/record_test.py *)

Module RecordTest.

Record ScreenRecorder := mkScreenRecorder {
  output_file : string;
  display : string;
  resolution : string;
  fps : Z;
  process : option nat;
  temp_file : string
}.

(** [ScreenRecorder(output_file, display, resolution, fps)], run by the
    process with pid [self_pid]. *)
Definition new_recorder (self_pid : nat) (output_file display resolution : string)
    (fps : Z) : ScreenRecorder :=
  mkScreenRecorder output_file display resolution fps None
    ("/tmp/recording_" +:+ NilEmpty.string_of_uint (Nat.to_uint self_pid) +:+ ".webm").

Definition set_process (p : option nat) (r : ScreenRecorder) : ScreenRecorder :=
  mkScreenRecorder (output_file r) (display r) (resolution r) (fps r) p (temp_file r).

(** [start], for an output path with a directory part, as [main] passes
    it ([/recordings/<name>.webm]); for a path without one,
    [os.makedirs('')] raises before anything is launched. *)
Definition start (r : ScreenRecorder) (m : machine) : ScreenRecorder * machine * res nat :=
  let m1 := on_disk (makedirs (dirname (output_file r))) m in
  match popen "ffmpeg" m1 with
  | (m2, Raise e) => (r, m2, Raise e)
  | (m2, Ok pid) =>
      let r1 := set_process (Some pid) r in
      if poll_is_none pid m2
      then (r1, m2, Ok pid)
      else (r1, m2, Raise (RuntimeError "Failed to start screen recording"))
  end.

(** [stop].  [left] is what the encoder has put at [temp_file] by the time
    it is gone ([None]: nothing).  [send_signal] and [wait(timeout)] raise
    nothing but [TimeoutExpired], so the [except Exception] arm is dead. *)
Definition stop (left : option bytes) (r : ScreenRecorder) (m : machine)
  : machine * option string :=
  match process r with
  | None => (m, None)
  | Some pid =>
      let m1 := send_signal pid SIGINT m in
      let '(m2, in_time) := wait pid (Some 10) m1 in
      let m3 := if in_time then m2
                else fst (wait pid None (send_signal pid SIGKILL m2)) in
      let m4 := match left with
                | Some v => on_disk (write_file (temp_file r) v) m3
                | None => m3
                end in
      if path_exists (disk m4) (temp_file r) then
        let m5 := on_disk (makedirs (parent (output_file r))) m4 in
        (on_disk (move (temp_file r) (output_file r)) m5, Some (output_file r))
      else (m4, None)
  end.

(** [run_dusk_test]: the test's return code is [rc], if php can be run. *)
Definition run_dusk_test (rc : Z) (m : machine) : res Z :=
  match installed m !! "php" with
  | Some _ => Ok rc
  | None => Raise FileNotFoundError
  end.

(** [main] after argument parsing, for the output path [output_file].
    [display_ready] is the result of [wait_for_display], [test_rc] the
    return code of the test run, [left] the encoder's output.  Lines about
    sizes and durations are not printed. *)
Definition main (self_pid : nat) (output_file disp resol : string) (fps : Z)
    (display_ready : bool) (test_rc : Z) (left : option bytes) (m : machine)
  : machine * exit :=
  let m0 := if display_ready then m
            else echo "Warning: Could not verify display is ready, continuing anyway..." m in
  let recorder := new_recorder self_pid output_file disp resol fps in
  match start recorder m0 with
  | (_, m1, Raise e) => (echo "ERROR: Failed to start recording" m1, Exit 1)
  | (recorder1, m1, Ok pid) =>
      let m2 := echo "Recording started" m1 in
      match run_dusk_test test_rc m2 with
      | Raise e => (m2, Traceback e)
      | Ok test_exit_code =>
          let '(m3, final_file) := stop left recorder1 m2 in
          let saved := match final_file with
                       | Some f => path_exists (disk m3) f
                       | None => false
                       end in
          let m4 := if saved
                    then echo ("Recording saved: " +:+ default "" final_file) m3
                    else echo "WARNING: Recording file not created" m3 in
          (m4, Exit test_exit_code)
      end
  end.

End RecordTest.

(** ** scripts/headless_recorder.py *)

Module HeadlessRecorder.

Definition PID_FILE : string := "/tmp/dusk-recorder.pid".
Definition DISPLAY_NUM : nat := 99.
Definition SCREEN_SIZE : string := "1920x1080x24".

(** *** Text of the pid file *)

Definition newline : ascii := "010"%char.

Definition decimal (n : nat) : string := NilEmpty.string_of_uint (Nat.to_uint n).

(** [f.readlines()], each line without its terminator. *)
Fixpoint lines_from (cur : list ascii) (cs : list ascii) : list string :=
  match cs with
  | [] => match cur with
          | [] => []
          | _ => [string_of_list_ascii (rev cur)]
          end
  | c :: cs' =>
      if bool_decide (c = newline)
      then string_of_list_ascii (rev cur) :: lines_from [] cs'
      else lines_from (c :: cur) cs'
  end.

Definition readlines (content : bytes) : list string :=
  lines_from [] (list_ascii_of_string (string_of_list_byte content)).

Definition is_space (c : ascii) : bool :=
  (bool_decide (c = " "%char) || bool_decide (c = newline))
  || (bool_decide (c = "009"%char) || bool_decide (c = "013"%char)).

Definition strip (s : string) : string :=
  let l := drop_while is_space (list_ascii_of_string s) in
  string_of_list_ascii (rev (drop_while is_space (rev l))).

(** [int(s)] for an unsigned decimal numeral. *)
Definition int (s : string) : res nat :=
  match s with
  | "" => Raise ValueError
  | _ => match NilEmpty.uint_of_string s with
         | Some d => Ok (Nat.of_uint d)
         | None => Raise ValueError
         end
  end.

(** *** The recorder object

    The methods of [HeadlessRecorder] carry the prefix [rec_]: the module
    has functions of its own called [start_recording] and
    [stop_recording]. *)

Record recorder := mkRecorder {
  display : nat;
  size : string;
  xvfb_proc : option nat;
  ffmpeg_proc : option nat
}.

Definition new_recorder (display : nat) (size : string) : recorder :=
  mkRecorder display size None None.

Definition rec_start_xvfb (r : recorder) (m : machine) : recorder * machine * res nat :=
  match popen "Xvfb" m with
  | (m1, Raise e) => (r, m1, Raise e)
  | (m1, Ok pid) =>
      (mkRecorder (display r) (size r) (Some pid) (ffmpeg_proc r),
       echo ("Started Xvfb on display :" +:+ decimal (display r)) m1, Ok pid)
  end.

(** The [-video_size] of the ffmpeg command,
    [self.size.split('x')[0] + 'x' + self.size.split('x')[1]]: a size
    without an [x] has no second part. *)
Definition video_size (size : string) : res string :=
  match str_split "x" size with
  | w :: h :: _ => Ok (w +:+ "x" +:+ h)
  | _ => Raise IndexError
  end.

Definition rec_start_recording (output_file : string) (r : recorder) (m : machine)
  : recorder * machine * res nat :=
  let m1 := on_disk (makedirs (parent output_file)) m in
  match video_size (size r) with
  | Raise e => (r, m1, Raise e)
  | Ok _ =>
      match popen "ffmpeg" m1 with
      | (m2, Raise e) => (r, m2, Raise e)
      | (m2, Ok pid) =>
          (mkRecorder (display r) (size r) (xvfb_proc r) (Some pid),
           echo ("Started recording to " +:+ output_file) m2, Ok pid)
      end
  end.

(** [HeadlessRecorder.stop]: ask ffmpeg to quit through its stdin and give
    it five seconds; whatever goes wrong there ends in [terminate()]. *)
Definition rec_stop (r : recorder) (m : machine) : machine :=
  let m1 :=
    match ffmpeg_proc r with
    | Some pid =>
        let '(ma, written) := write_stdin pid "q" m in
        let '(mb, done) := if written then wait pid (Some 5) ma else (ma, false) in
        let mc := if done then mb else send_signal pid SIGTERM mb in
        echo "Stopped recording" mc
    | None => m
    end in
  match xvfb_proc r with
  | Some pid => echo "Stopped Xvfb" (send_signal pid SIGTERM m1)
  | None => m1
  end.

Definition save_pids (xvfb_pid ffmpeg_pid : nat) (output_file : string) (m : machine)
  : machine :=
  let nl := String newline "" in
  let text := decimal xvfb_pid +:+ nl +:+ decimal ffmpeg_pid +:+ nl +:+ output_file +:+ nl in
  on_disk (write_file PID_FILE (list_byte_of_string text)) m.

Definition load_pids (m : machine) : res (option (nat * nat * string)) :=
  match files (disk m) !! PID_FILE with
  | None => Ok None
  | Some content =>
      match readlines content with
      | l0 :: l1 :: l2 :: _ =>
          match int (strip l0), int (strip l1) with
          | Ok x, Ok f => Ok (Some (x, f, strip l2))
          | Raise e, _ => Raise e
          | _, Raise e => Raise e
          end
      | _ => Ok None
      end
  end.

Definition cleanup_pid_file (m : machine) : machine :=
  if path_exists (disk m) PID_FILE then on_disk (remove PID_FILE) m else m.

(** *** The commands *)

(** [start_recording(output_file, display, size)] *)
Definition start_recording (output_file : string) (display : nat) (size : string)
    (m : machine) : machine * res (nat * nat) :=
  let recorder := new_recorder display size in
  match rec_start_xvfb recorder m with
  | (_, m1, Raise e) => (m1, Raise e)
  | (recorder1, m1, Ok xvfb_pid) =>
      match rec_start_recording output_file recorder1 m1 with
      | (_, m2, Raise e) => (m2, Raise e)
      | (_, m2, Ok ffmpeg_pid) =>
          let m3 := save_pids xvfb_pid ffmpeg_pid output_file m2 in
          (echo "Recording started!" m3, Ok (xvfb_pid, ffmpeg_pid))
      end
  end.

(** [os.kill(pid, SIGTERM)] in [try ... except ProcessLookupError: pass] *)
Definition os_kill_term (pid : nat) (m : machine) : machine :=
  if poll_is_none pid m then send_signal pid SIGTERM m else m.

(** [stop_recording()] *)
Definition stop_recording (m : machine) : machine * res unit :=
  match load_pids m with
  | Raise e => (m, Raise e)
  | Ok None => (echo "No recording in progress" m, Ok tt)
  | Ok (Some (O, _, _)) => (echo "No recording in progress" m, Ok tt)
  | Ok (Some (xvfb_pid, ffmpeg_pid, output_file)) =>
      let m1 := os_kill_term ffmpeg_pid m in
      let m2 := os_kill_term xvfb_pid m1 in
      let m3 := cleanup_pid_file m2 in
      (echo ("Recording stopped. Output: " +:+ output_file) m3, Ok tt)
  end.

(** [sys.exit(run_with_recording(command, output_file, display))], the
    [run] command.  The command ends with return code [rc] unless a signal
    reaches the script first: [interrupt] is that signal.  No handler is
    installed, so the signal meets [python_default]. *)
Definition run_with_recording (output_file : string) (display : nat)
    (interrupt : option signal) (rc : Z) (m : machine) : machine * exit :=
  let recorder := new_recorder display SCREEN_SIZE in
  match rec_start_xvfb recorder m with
  | (_, m1, Raise e) => (m1, Traceback e)
  | (recorder1, m1, Ok _) =>
      match rec_start_recording output_file recorder1 m1 with
      | (_, m2, Raise e) => (m2, Traceback e)
      | (recorder2, m2, Ok _) =>
          (* try: subprocess.run(command) ... finally: recorder.stop() *)
          match interrupt with
          | None => (rec_stop recorder2 m2, Exit rc)
          | Some s =>
              match python_default s with
              | RaiseInMain e => (rec_stop recorder2 m2, Traceback e)
              | Die => (m2, KilledBy s)
              end
          end
      end
  end.

End HeadlessRecorder.

(** ** docker/entrypoint.py *)

Module Entrypoint.

(** [ServiceManager.processes]: (name, pid) in start order. *)
Definition ServiceManager := list (string * nat).

(** The signal handlers [main] installs: both end in [sys.exit(0)]. *)
Definition handler (s : signal) : disposition :=
  match s with
  | SIGTERM | SIGINT => RaiseInMain (SystemExit 0)
  | SIGKILL => Die
  end.

(** Where [main] is when a signal reaches it: the four places where it
    waits.  At most one signal arrives; one that arrives inside [Popen]
    or while the exit hook runs has no case here. *)
Inductive moment :=
  | InXvfbStartup          (* the sleep of start_xvfb *)
  | InDisplayCheck         (* the xdpyinfo run, inside try/except *)
  | InChromedriverStartup  (* the sleep of start_chromedriver *)
  | InRecording.           (* the run of record_test.py *)

#[global] Instance moment_eq_dec : EqDecision moment.
Proof. solve_decision. Defined.

Definition arrives (sig : option (signal * moment)) (now : moment) : option signal :=
  match sig with
  | Some (s, t) => if decide (t = now) then Some s else None
  | None => None
  end.

(** How a method call ends when signals are about. *)
Inductive outcome (A : Type) :=
  | Returns (a : A)
  | Raises (e : exn)
  | Dies (s : signal).
Arguments Returns {A} a.
Arguments Raises {A} e.
Arguments Dies {A} s.

Definition on_signal {A : Type} (s : signal) : outcome A :=
  match handler s with
  | RaiseInMain e => Raises e
  | Die => Dies s
  end.

(** [start_xvfb]; [display_ok] says whether xdpyinfo returns 0.  The bare
    [except: pass] around that run also swallows the handler's SystemExit. *)
Definition start_xvfb (sig : option (signal * moment)) (display_ok : bool)
    (sm : ServiceManager) (m : machine) : ServiceManager * machine * outcome bool :=
  match popen "Xvfb" m with
  | (m1, Raise e) => (sm, m1, Raises e)
  | (m1, Ok pid) =>
      let sm1 := (sm ++ [("Xvfb", pid)])%list in
      match arrives sig InXvfbStartup with
      | Some s => (sm1, m1, on_signal s)
      | None =>
          match arrives sig InDisplayCheck with
          | Some SIGKILL => (sm1, m1, Dies SIGKILL)
          | Some _ => (sm1, echo "Warning: Could not verify display" m1, Returns false)
          | None =>
              if display_ok
              then (sm1, echo "Virtual display started" m1, Returns true)
              else (sm1, echo "Warning: Could not verify display" m1, Returns false)
          end
      end
  end.

Definition start_chromedriver (sig : option (signal * moment))
    (sm : ServiceManager) (m : machine) : ServiceManager * machine * outcome bool :=
  match popen "chromedriver" m with
  | (m1, Raise e) => (sm, m1, Raises e)
  | (m1, Ok pid) =>
      let sm1 := (sm ++ [("ChromeDriver", pid)])%list in
      match arrives sig InChromedriverStartup with
      | Some s => (sm1, m1, on_signal s)
      | None =>
          if poll_is_none pid m1
          then (sm1, echo "ChromeDriver started" m1, Returns true)
          else (sm1, echo "Warning: ChromeDriver may not have started correctly" m1,
                Returns false)
      end
  end.

(** The body of the loop of [stop_all]. *)
Definition stop_one (np : string * nat) (m : machine) : machine :=
  let pid := np.2 in
  if poll_is_none pid m then
    let m1 := send_signal pid SIGTERM m in
    let '(m2, in_time) := wait pid (Some 5) m1 in
    let m3 := if in_time then m2 else send_signal pid SIGKILL m2 in
    echo ("Stopped " +:+ np.1) m3
  else m.

Definition stop_all (sm : ServiceManager) (m : machine) : machine :=
  fold_left (λ acc np, stop_one np acc) (reverse sm) m.

(** [run_recording]: record_test.py returns [rc] unless a signal comes. *)
Definition run_recording (sig : option (signal * moment)) (rc : Z) (m : machine)
  : outcome Z :=
  match installed m !! "python3" with
  | None => Raises FileNotFoundError
  | Some _ =>
      match arrives sig InRecording with
      | Some s => on_signal s
      | None => Returns rc
      end
  end.

(** [main] from [services = ServiceManager()] on, up to the point where
    the interpreter would run the exit hooks. *)
Definition main_body (sig : option (signal * moment)) (display_ok : bool) (rc : Z)
    (m : machine) : ServiceManager * machine * outcome Z :=
  match start_xvfb sig display_ok [] m with
  | (sm, m1, Raises e) => (sm, m1, Raises e)
  | (sm, m1, Dies s) => (sm, m1, Dies s)
  | (sm, m1, Returns false) =>
      (sm, echo "ERROR: Failed to start virtual display" m1, Raises (SystemExit 1))
  | (sm, m1, Returns true) =>
      match start_chromedriver sig sm m1 with
      | (sm2, m2, Raises e) => (sm2, m2, Raises e)
      | (sm2, m2, Dies s) => (sm2, m2, Dies s)
      | (sm2, m2, Returns false) =>
          (sm2, echo "ERROR: Failed to start ChromeDriver" m2, Raises (SystemExit 1))
      | (sm2, m2, Returns true) =>
          match run_recording sig rc m2 with
          | Returns exit_code => (sm2, m2, Raises (SystemExit exit_code))
          | Raises e => (sm2, m2, Raises e)
          | Dies s => (sm2, m2, Dies s)
          end
      end
  end.

(** The whole run: the [atexit] hook ([cleanup], that is [stop_all]) runs
    on every exit the interpreter itself performs. *)
Definition main (sig : option (signal * moment)) (display_ok : bool) (rc : Z)
    (m : machine) : machine * exit :=
  match main_body sig display_ok rc m with
  | (sm, m1, Dies s) => (m1, KilledBy s)
  | (sm, m1, Raises (SystemExit c)) => (stop_all sm m1, Exit c)
  | (sm, m1, Raises e) => (stop_all sm m1, Traceback e)
  | (sm, m1, Returns c) => (stop_all sm m1, Exit c)
  end.

End Entrypoint.

(** ** Output names: docker/record_test.py and docker/dusk_record.py *)

Module OutputNames.

Definition string_rev (s : string) : string :=
  string_of_list_ascii (rev (list_ascii_of_string s)).

(** [s.endswith(suffix)] *)
Definition endswith (s suffix : string) : bool :=
  String.prefix (string_rev suffix) (string_rev s).

(** [s.replace(old, new)] for a non-empty [old]: occurrences are taken
    from the left and do not overlap.  [skip] counts the characters of an
    occurrence just replaced that are still to be passed over. *)
Fixpoint replace_from (old new : string) (skip : nat) (s : string) : string :=
  match s with
  | "" => ""
  | String c s' =>
      match skip with
      | S k => replace_from old new k s'
      | O =>
          if String.prefix old s
          then new +:+ replace_from old new (String.length old - 1) s'
          else String c (replace_from old new 0 s')
      end
  end.

Definition replace (old new s : string) : string := replace_from old new 0 s.

(** [record_test.main]: from the output name to the path recorded to.

      if not output_name.endswith('.webm'):
          output_name = output_name.replace('.mp4', '')
      output_file = f"/recordings/{output_name}.webm" *)
Definition output_file_of (output_name : string) : string :=
  let output_name :=
    if negb (endswith output_name ".webm")
    then replace ".mp4" "" output_name
    else output_name in
  "/recordings/" +:+ output_name +:+ ".webm".

(** [dusk_record.main]: the file looked for after the run,
    [os.path.join(recordings_dir, f"{output_name}.mp4")]. *)
Definition recording_file (recordings_dir output_name : string) : string :=
  path_join recordings_dir (output_name +:+ ".mp4").

End OutputNames.

(** ** docker/dusk_record.py *)

Module DuskRecord.
Import OutputNames.

Definition IMAGE_NAME : string := "dusk-recorder".

(** What docker does on this host: whether [docker --version] succeeds,
    whether the image is there, and the return codes of a build and of
    the run of the container. *)
Record docker := mkDocker {
  available : bool;
  image_present : bool;
  build_rc : Z;
  run_rc : Z
}.

(** The docker commands [main] has run that change something: builds and
    runs.  The inspections [docker --version] and [docker image inspect]
    are answered by [available] and [image_present] and are not listed. *)
Inductive docker_cmd :=
  | Build (tag dockerfile_dir : string)
  | Run (image test_file output_name recordings_dir : string).

Record host := mkHost {
  hdisk : FS;
  ran : list docker_cmd;
  printed : list string
}.

Definition say (line : string) (h : host) : host :=
  mkHost (hdisk h) (ran h) (printed h ++ [line]).
Definition docker_run (c : docker_cmd) (h : host) : host :=
  mkHost (hdisk h) (ran h ++ [c]) (printed h).
Definition on_host_disk (f : FS → FS) (h : host) : host :=
  mkHost (f (hdisk h)) (ran h) (printed h).

(** [main] after argument parsing.  [output_name] is the optional
    argument, [generated] the name made from the test file and the clock
    when it is absent or empty, [container] what the run of the container
    does to the disk through its mounts.  Of what is printed, the header
    and the lines about the file found are left out, and the lines kept
    are cut before the value they end with. *)
Definition main (test_file : string) (output_name : option string) (generated : string)
    (build : bool) (recordings_dir script_dir : string) (d : docker)
    (container : FS → FS) (h : host) : host * exit :=
  if negb (available d)
  then (say "Error: Docker is not installed or not running" h, Exit 1)
  else if negb (path_exists (hdisk h) test_file)
  then (say ("Error: Test file not found: " +:+ test_file) h, Exit 1)
  else
    let h1 := on_host_disk (makedirs recordings_dir) h in
    let name := match output_name with
                | Some n => if bool_decide (n = "") then generated else n
                | None => generated
                end in
    let built :=
      if build || negb (image_present d)
      then
        let h2 := docker_run (Build IMAGE_NAME script_dir) (say "Building Docker image..." h1) in
        if negb (Z.eqb (build_rc d) 0)
        then (say "Failed to build Docker image" h2, false)
        else (say "Docker image built successfully" h2, true)
      else (h1, true) in
    if negb built.2 then (built.1, Exit 1)
    else
      let h3 := say "Starting recording container..." built.1 in
      let h4 := on_host_disk container
                  (docker_run (Run IMAGE_NAME test_file name recordings_dir) h3) in
      let exit_code := run_rc d in
      let found := path_exists (hdisk h4) (recording_file recordings_dir name) in
      let h5 :=
        if Z.eqb exit_code 0 then
          if found then say "Recording Complete!" h4
          else say "Warning: Recording file not found" h4
        else
          let h' := say "Test failed with exit code" h4 in
          if found then say "Recording (partial)" h' else h' in
      (h5, Exit exit_code).

End DuskRecord.

(** * Notions used in the statements *)

(** ** Frames and requests *)

Module FrameNotions.
Import ScreenshotRecorder.

(** Reading a [%06d] field back. *)
Definition read_index (s : string) : option nat :=
  option_map Nat.of_uint (NilEmpty.uint_of_string s).

(** The payload of a capture that yields a frame. *)
Definition success (o : cdp_reply) : option bytes :=
  match o with
  | Screenshot (b :: d) => Some (b :: d)
  | _ => None
  end.

(** The frames a recorder gets out of a run of capture attempts, in
    order: without an open socket, none. *)
Definition successes (sock : option websocket) (os : list cdp_reply) : list bytes :=
  match sock with
  | Some WsOpen => omap success os
  | _ => []
  end.

(** The state of the frame directory [d] when the frames [ks] have been
    saved by a recorder whose loop is on. *)
Record numbered (d : string) (sock : option websocket) (ks : list bytes)
    (r : recorder) (w : world) : Prop := mkNumbered {
  num_dir : output_dir r = d;
  num_sock : ws r = sock;
  num_on : recording r = true;
  num_count : frame_count r = length ks;
  num_file : ∀ i, files (fs w) !! path_join d (frame_name i) = ks !! i;
  num_only : ∀ p, is_under d p = true → is_Some (files (fs w) !! p) →
             ∃ i, i < length ks ∧ p = path_join d (frame_name i)
}.

(** One session of the sampler: [start_recording], then the capture loop
    over the attempts [os]. *)
Definition session (r : recorder) (w : world) (os : list cdp_reply) : recorder * world :=
  capture_loop os (start_recording r w).

(** A recorder in mid-session with one frame, then with three. *)
Definition one_frame : recorder :=
  mkRecorder None "/tmp/dusk-screenshots" (JInt 10) [] true 1 (Some WsOpen).
Definition three_frames : recorder :=
  mkRecorder None "/tmp/dusk-screenshots" (JInt 10) [] true 3 (Some WsOpen).
Definition blank : world := mkWorld empty_fs [] [].

Definition browser_up : env :=
  mkEnv true (Ok tt) (Screenshot [x89; x50; x4e; x47])
        (FfmpegExit 0 (Some [x00; x00; x01]) "").

(** The same surroundings once the frames are gone: ffmpeg finds no input. *)
Definition no_frames_left : env :=
  mkEnv true (Ok tt) NoData (FfmpegExit 1 None "frame_%06d.png: No such file").

Definition start_body : body :=
  Parsed (JDict [("debugger_url", JStr "ws://127.0.0.1:9222/devtools/page/1")]).

Definition shot : cdp_reply := Screenshot [x89; x50; x4e; x47].

Definition recording_reply : reply := Json200 [("status", JStr "recording")].

(** A stopped session: Start, two frames, Stop, and Stop again. *)
Definition stop_twice : list event :=
  [POST "/start" start_body browser_up; Tick 0 shot; Tick 0 shot;
   POST "/stop" NoBody browser_up; POST "/stop" NoBody no_frames_left].

End FrameNotions.

(** ** Processes and machines *)

Module ProcNotions.
Import RecordTest HeadlessRecorder Entrypoint.

(** What [wait] answers, and what it leaves. *)
Definition gone_within (timeout : option nat) (pid : nat) (m : machine) : bool :=
  match proc_at pid m with
  | Some p => exits_within timeout p
  | None => true
  end.

(** The encoder is there and does not react to a request to stop within
    the ten seconds given. *)
Definition reacts_within (t : nat) (p : proc) : bool :=
  match grace p with
  | Some d => Nat.leb d t
  | None => false
  end.

Definition timed_out (pid : nat) (m : machine) : bool :=
  match proc_at pid m with
  | Some p => alive p && negb (reacts_within 10 p)
  | None => false
  end.

(** What is at the temporary path when the encoder is gone. *)
Definition temporary (left : option bytes) (r : ScreenRecorder) (m : machine)
  : option bytes :=
  match left with
  | Some v => Some v
  | None => files (disk m) !! temp_file r
  end.

(** The machine after the encoder of [stop] has been dealt with. *)
Definition encoder_stopped (pid : nat) (m : machine) : machine :=
  let m1 := send_signal pid SIGINT m in
  let m2 := (wait pid (Some 10) m1).1 in
  if (wait pid (Some 10) m1).2 then m2
  else (wait pid None (send_signal pid SIGKILL m2)).1.

(** A container in which ffmpeg needs a second to finish, with the test
    runner installed; a recorder whose encoder runs as pid 1, with and
    without a file at the temporary path. *)
Definition container : machine :=
  mkMachine {[ "ffmpeg" := mkProgram true (Some 1); "php" := mkProgram true (Some 0) ]}
            [] [] empty_fs [].

Definition encoding : machine :=
  mkMachine {[ "ffmpeg" := mkProgram true (Some 1) ]}
            [mkProc "ffmpeg" Running (Some 1)] [Spawn "ffmpeg" 1] empty_fs [].

(** The same with an encoder that ignores SIGINT. *)
Definition stuck_encoding : machine :=
  mkMachine {[ "ffmpeg" := mkProgram true None ]}
            [mkProc "ffmpeg" Running None] [Spawn "ffmpeg" 1] empty_fs [].

Definition login_recorder : ScreenRecorder :=
  set_process (Some 1)
    (RecordTest.new_recorder 7 "/recordings/login.webm" ":99" "1920x1080" 15).

(** Every child of the machine is one the service manager knows. *)
Definition managed (sm : ServiceManager) (m : machine) : Prop :=
  sm.*2 = seq 1 (length (procs m)).

(** A host with both programs, and one where ffmpeg is not installed. *)
Definition host : machine :=
  mkMachine {[ "Xvfb" := mkProgram true (Some 1); "ffmpeg" := mkProgram true (Some 1) ]}
            [] [] empty_fs [].

Definition host_without_ffmpeg : machine :=
  mkMachine {[ "Xvfb" := mkProgram true (Some 1) ]} [] [] empty_fs [].

End ProcNotions.

(** ** Requests in a row *)

Module MoreNotions.
Import ScreenshotRecorder.

(** The two ways a session comes by a frame: a /frame request, with its
    body and its surroundings, and a turn of its capture thread. *)
Inductive capture :=
  | Manual (b : body) (e : env)
  | Timed (o : cdp_reply).

(** A run of captures as events of the server, for the session whose
    recorder is at address [a]. *)
Definition capture_events (a : nat) (cs : list capture) : list event :=
  (λ c, match c with
        | Manual b e => POST "/frame" b e
        | Timed o => Tick a o
        end) <$> cs.

(** What the browser answered to each of them. *)
Definition answers (cs : list capture) : list cdp_reply :=
  (λ c, match c with
        | Manual _ e => screenshot e
        | Timed o => o
        end) <$> cs.

Definition stopped_reply (output : json) : reply :=
  Json200 [("status", JStr "stopped"); ("output", output)].



End MoreNotions.

(** ** Text and processes *)

Module ProcMoreNotions.
Import HeadlessRecorder ProcNotions.

Definition is_digit (c : ascii) : Prop :=
  c ∈ ["0"; "1"; "2"; "3"; "4"; "5"; "6"; "7"; "8"; "9"]%char.

(** The printable characters of ASCII, the blank included.  Text made of
    them, and of line feeds, is what Python reads back from a file as it
    was written, with [str.strip] removing blanks and line feeds only. *)
Definition printable (c : ascii) : bool :=
  Nat.leb 32 (nat_of_ascii c) && Nat.ltb (nat_of_ascii c) 127.

Definition plain (c : ascii) : bool := printable c || bool_decide (c = newline).

(** A program that is gone within five seconds of being asked to stop. *)
Definition quick (prog : program) : bool :=
  match stop_after prog with
  | Some d => Nat.leb d 5
  | None => false
  end.

(** The same of a running process. *)
Definition quits_in_time (pid : nat) (m : machine) : bool :=
  match proc_at pid m with
  | Some p => reacts_within 5 p
  | None => true
  end.

(** What is done to get ffmpeg to stop: the [q] on its stdin; the wait of
    five seconds if that could be written; SIGTERM if it could not, or if
    the wait ran out. *)
Definition quit_calls (pid : nat) (m : machine) : list call :=
  WriteStdin pid "q"
  :: (if poll_is_none pid m
      then Wait pid (Some 5) :: (if quits_in_time pid m then [] else [SendSignal pid SIGTERM])
      else [SendSignal pid SIGTERM]).


(** What [stop_all] does to a service that is running: SIGTERM, the wait
    of five seconds, and SIGKILL for one that is not quick. *)
Definition term_calls (pid : nat) (prog : program) : list call :=
  [SendSignal pid SIGTERM; Wait pid (Some 5)]
  ++ (if quick prog then [] else [SendSignal pid SIGKILL]).

End ProcMoreNotions.

(** * Properties *)

(** ** Paths and the file system *)

Module SysFacts.

Lemma append_cons (c : ascii) (s t : string) : String c s +:+ t = String c (s +:+ t).
Proof. reflexivity. Qed.

Lemma append_nil_r (s : string) : s +:+ "" = s.
Proof. induction s as [|c s IH]; [done|]. by rewrite append_cons, IH. Qed.

Lemma append_assoc (s t u : string) : (s +:+ t) +:+ u = s +:+ (t +:+ u).
Proof. induction s as [|c s IH]; [done|]. by rewrite !append_cons, IH. Qed.

Lemma append_length (s t : string) :
  String.length (s +:+ t) = String.length s + String.length t.
Proof. induction s as [|c s IH]; [done|]. rewrite append_cons. simpl. by rewrite IH. Qed.

Lemma prefix_append (s t : string) : String.prefix s (s +:+ t) = true.
Proof.
  induction s as [|c s IH]; [by destruct t|].
  rewrite append_cons. simpl. destruct (ascii_dec c c); [exact IH | done].
Qed.

(** Joining onto a directory prepends one fixed string. *)
Lemma path_join_base (d x : string) : path_join d x = path_join d "" +:+ x.
Proof.
  unfold path_join. case_bool_decide; [done|].
  destruct (ends_with_slash d).
  - by rewrite append_nil_r.
  - by rewrite append_assoc.
Qed.

Lemma path_join_inj (d a b : string) : path_join d a = path_join d b → a = b.
Proof.
  rewrite (path_join_base d a), (path_join_base d b). apply String.app_inj.
Qed.

Lemma path_join_ne_dir (d x : string) : x ≠ "" → path_join d x ≠ d.
Proof.
  intros Hx Heq. assert (String.length x = 0) as Hlen.
  { apply (f_equal String.length) in Heq. revert Heq. unfold path_join.
    case_bool_decide as Hd; [subst d; simpl; lia|].
    destruct (ends_with_slash d); rewrite !append_length; simpl; lia. }
  destruct x; [done | discriminate].
Qed.

Lemma is_under_join (d x : string) : x ≠ "" → is_under d (path_join d x) = true.
Proof.
  intros Hx. unfold is_under.
  rewrite (path_join_base d x) at 1. rewrite prefix_append. simpl.
  apply andb_true_iff; split; apply negb_true_iff, String.eqb_neq.
  - intros Heq. apply path_join_inj in Heq. done.
  - by apply path_join_ne_dir.
Qed.

Lemma is_under_irrefl (d : string) : is_under d d = false.
Proof.
  unfold is_under. rewrite (String.eqb_refl d). simpl.
  by rewrite !andb_false_r.
Qed.

(** *** What the file operations do to a directory *)

Lemma rmtree_purged (d : string) (fs : FS) : purged d (rmtree d fs).
Proof.
  split.
  - simpl. rewrite elem_of_filter. intros [[Hne _] _]. by apply Hne.
  - intros p Hp. simpl. split.
    + rewrite elem_of_filter. intros [[_ Hq] _]. congruence.
    + apply map_lookup_filter_None_2.
      destruct (files fs !! p) as [x|] eqn:E; [right | by left].
      intros y _. simpl. congruence.
Qed.

Lemma makedirs_emptied (d : string) (fs : FS) : emptied d fs → emptied d (makedirs d fs).
Proof.
  intros He p Hp. destruct (He p Hp) as [Hd Hf]. split; [|done].
  simpl. rewrite elem_of_union, elem_of_singleton. intros [->|]; [|done].
  by rewrite is_under_irrefl in Hp.
Qed.

Lemma not_exists_emptied (d : string) (fs : FS) : path_exists fs d = false → emptied d fs.
Proof.
  unfold path_exists. rewrite !orb_false_iff, !negb_false_iff.
  intros [_ [Hf Hd]]. apply bool_decide_eq_true in Hf, Hd.
  intros p Hp. split.
  - intros Hin. assert (p ∈ dirs_under d fs) as Hin'.
    { unfold dirs_under. by apply elem_of_filter. }
    rewrite Hd in Hin'. set_solver.
  - destruct (files fs !! p) as [x|] eqn:E; [|done].
    assert (files_under d fs !! p = Some x) as Hin'.
    { unfold files_under. by apply map_lookup_filter_Some. }
    rewrite Hf in Hin'. by rewrite lookup_empty in Hin'.
Qed.

End SysFacts.

(** ** Frame file names are distinct *)

Module FrameNames.
Import SysFacts ScreenshotRecorder FrameNotions.

Lemma append_inj_r (s t u : string) : s +:+ u = t +:+ u → s = t.
Proof.
  intros H.
  assert (String.length s = String.length t) as Hlen.
  { apply (f_equal String.length) in H. rewrite !append_length in H. lia. }
  revert t H Hlen. induction s as [|c s IH]; intros [|c' t] H Hlen; simpl in *;
    try done.
  rewrite !append_cons in H. injection H as -> H. f_equal. apply IH; [done | lia].
Qed.

Lemma read_index_zero (s : string) : read_index (String "0" s) = read_index s.
Proof.
  unfold read_index. simpl. destruct (NilEmpty.uint_of_string s) as [d|]; [|done].
  reflexivity.
Qed.

Lemma read_index_zeros (k : nat) (s : string) : read_index (zeros k +:+ s) = read_index s.
Proof.
  induction k as [|k IH]; [done|]. simpl. by rewrite append_cons, read_index_zero.
Qed.

Lemma read_index_fmt (n : nat) : read_index (fmt_06d n) = Some n.
Proof.
  unfold fmt_06d. rewrite read_index_zeros. unfold read_index, decimal.
  rewrite NilEmpty.usu. simpl. by rewrite Unsigned.of_to.
Qed.

Lemma frame_name_inj (i j : nat) : frame_name i = frame_name j → i = j.
Proof.
  unfold frame_name. intros H. apply String.app_inj in H. apply append_inj_r in H.
  apply (f_equal read_index) in H. rewrite !read_index_fmt in H. congruence.
Qed.

Lemma frame_name_nonempty (i : nat) : frame_name i ≠ "".
Proof. done. Qed.

Lemma frame_file_inj (d : string) (i j : nat) :
  path_join d (frame_name i) = path_join d (frame_name j) → i = j.
Proof. intros H. by apply frame_name_inj, (path_join_inj d). Qed.

End FrameNames.

(** ** One FrameSampler session: [ScreenshotRecorder] *)

Module FrameSampler.
Import SysFacts FrameNames ScreenshotRecorder FrameNotions.

Lemma successes_cons (sock : option websocket) (o : cdp_reply) (os : list cdp_reply) :
  successes sock (o :: os)
  = (match sock, success o with
     | Some WsOpen, Some x => [x]
     | _, _ => []
     end ++ successes sock os)%list.
Proof.
  destruct sock as [[|]|]; simpl; try done. by destruct (success o).
Qed.

Lemma numbered_start (r : recorder) (w : world) :
  numbered (output_dir r) (ws r) [] (start_recording r w).1 (start_recording r w).2.
Proof.
  assert (emptied (output_dir r) (fs (start_recording r w).2)) as He.
  { unfold start_recording. simpl. apply makedirs_emptied.
    destruct (path_exists (fs w) (output_dir r)) eqn:E.
    - apply rmtree_purged.
    - by apply not_exists_emptied. }
  split; try done.
  - intros i. rewrite lookup_nil.
    apply (He (path_join (output_dir r) (frame_name i))).
    apply is_under_join, frame_name_nonempty.
  - intros p Hp [x Hx]. destruct (He p Hp) as [_ Hnone]. congruence.
Qed.

Lemma numbered_save (d : string) (sock : option websocket) (ks : list bytes)
    (x : bytes) (r : recorder) (w : world) :
  numbered d sock ks r w →
  numbered d sock (ks ++ [x]) (save_frame x r w).1 (save_frame x r w).2.
Proof.
  intros [Hd Hs Hon Hc Hf Ho]. unfold save_frame, frame_path. simpl.
  rewrite Hd, Hc. split; simpl; try done.
  - rewrite length_app. simpl. lia.
  - intros i. destruct (decide (i = length ks)) as [->|Hne].
    + rewrite lookup_insert_eq. by rewrite list_lookup_middle.
    + rewrite lookup_insert_ne.
      * rewrite Hf. destruct (decide (i < length ks)).
        -- by rewrite lookup_app_l.
        -- rewrite !lookup_ge_None_2; [done | | lia].
           rewrite length_app. simpl. lia.
      * intros Heq. apply frame_file_inj in Heq. congruence.
  - intros p Hp Hsome. rewrite length_app. simpl.
    destruct (decide (p = path_join d (frame_name (length ks)))) as [->|Hne].
    + exists (length ks). split; [lia | done].
    + rewrite lookup_insert_ne in Hsome by done.
      destruct (Ho p Hp Hsome) as (i & Hi & ->). exists i. split; [lia | done].
Qed.

Lemma numbered_step (d : string) (sock : option websocket) (ks : list bytes)
    (o : cdp_reply) (r : recorder) (w : world) :
  numbered d sock ks r w →
  numbered d sock (ks ++ successes sock [o])
           (capture_step o (r, w)).1 (capture_step o (r, w)).2.
Proof.
  intros Hn. pose proof Hn as [Hd Hs Hon Hc Hf Ho].
  unfold capture_step, take_screenshot_cdp. rewrite Hon, Hs.
  destruct sock as [[|]|]; simpl; rewrite ?app_nil_r; try done.
  destruct o as [[|b data]| |e]; simpl; rewrite ?app_nil_r; try done.
  by apply numbered_save.
Qed.

Lemma numbered_loop (d : string) (sock : option websocket) (os : list cdp_reply) :
  ∀ (ks : list bytes) (r : recorder) (w : world),
    numbered d sock ks r w →
    numbered d sock (ks ++ successes sock os)
             (capture_loop os (r, w)).1 (capture_loop os (r, w)).2.
Proof.
  induction os as [|o os IH]; intros ks r w Hn.
  - assert (successes sock [] = []) as -> by (by destruct sock as [[|]|]).
    by rewrite app_nil_r.
  - rewrite successes_cons, app_assoc.
    change (capture_loop (o :: os) (r, w))
      with (capture_loop os (capture_step o (r, w))).
    destruct (capture_step o (r, w)) as [r1 w1] eqn:E.
    apply (IH _ r1 w1).
    pose proof (numbered_step d sock ks o r w Hn) as Hstep.
    rewrite E in Hstep. simpl in Hstep.
    by destruct sock as [[|]|].
Qed.

(** C4.  In a FrameSampler session, whatever the run of successful and
    failed captures, the frame counter equals the number of successful
    captures, the file with index [i] holds the [i]-th successful capture
    (so indices 0..frame_count-1 are all there, in capture order), and the
    frame directory holds no other file: a failed capture neither writes a
    frame nor advances the index. *)
Theorem frame_indices_gapless (r : recorder) (w : world) (os : list cdp_reply) :
  let good := successes (ws r) os in
  let end_ := session r w os in
  frame_count end_.1 = length good
  ∧ (∀ i, files (fs end_.2) !! path_join (output_dir r) (frame_name i) = good !! i)
  ∧ (∀ p, is_under (output_dir r) p = true → is_Some (files (fs end_.2) !! p) →
       ∃ i, i < length good ∧ p = path_join (output_dir r) (frame_name i)).
Proof.
  intros good end_. pose proof (numbered_start r w) as H0.
  destruct (start_recording r w) as [r0 w0] eqn:E0. simpl in H0.
  pose proof (numbered_loop _ _ os [] r0 w0 H0) as [_ _ _ Hc Hf Ho].
  subst good end_. unfold session. rewrite E0. simpl in *. done.
Qed.

(** C3.  When fewer than two frames were captured, ending the session
    returns no path and raises nothing, says so on its output, runs no
    encoder and leaves the file system as it was: no artifact appears. *)
Theorem end_with_too_few_frames (r : recorder) (output_file : json)
    (run : ffmpeg_run) (w : world) :
  (frame_count r < 2)%nat →
  let end_ := stop_recording output_file run r w in
  end_.2 = Ok None
  ∧ recording end_.1.1 = false
  ∧ stdout end_.1.2 = (stdout w ++ ["Not enough frames captured"])%list
  ∧ encodes end_.1.2 = encodes w
  ∧ fs end_.1.2 = fs w.
Proof.
  intros Hlt. unfold stop_recording, create_video.
  assert (frame_count (close_ws (set_recording false r)) = frame_count r) as ->.
  { unfold close_ws. simpl. by destruct (ws r). }
  destruct (Nat.ltb_spec (frame_count r) 2) as [_|Hge]; [|lia].
  simpl. repeat split. unfold close_ws. simpl. by destruct (ws r).
Qed.

(** C8.  Once the encode has run, whatever its return code, the frame
    directory is gone with all its content; and [start_recording] leaves
    the frame directory without content.  (An ffmpeg that cannot be
    launched, or an output path that is no string, makes [create_video]
    raise before the purge: there the encode has not completed.) *)
Theorem frame_directory_purged (r : recorder) (w : world) :
  (∀ out rc video err, (2 ≤ frame_count r)%nat →
     purged (output_dir r)
            (fs (create_video (JStr out) (FfmpegExit rc video err) r w).1))
  ∧ emptied (output_dir r) (fs (start_recording r w).2).
Proof.
  split.
  - intros out rc video err Hge. unfold create_video.
    destruct (Nat.ltb_spec (frame_count r) 2) as [Hlt|_]; [lia|].
    destruct (rc =? 0)%Z; simpl; apply rmtree_purged.
  - unfold start_recording. simpl. apply makedirs_emptied.
    destruct (path_exists (fs w) (output_dir r)) eqn:E.
    + apply rmtree_purged.
    + by apply not_exists_emptied.
Qed.

Lemma end_with_too_few_frames_witness :
  (frame_count one_frame < 2)%nat
  ∧ (stop_recording (JStr "/tmp/dusk-recording.mp4") FfmpegMissing one_frame blank).2
    = Ok None.
Proof.
  split; [simpl; lia|].
  apply (end_with_too_few_frames one_frame (JStr "/tmp/dusk-recording.mp4")
           FfmpegMissing blank).
  simpl; lia.
Defined.

Lemma frame_indices_gapless_witness :
  frame_count
    (session (set_ws (Some WsOpen) (new_recorder (JInt 10))) blank
             [Screenshot [x01]; NoData; CdpFailure ConnectionError; Screenshot [x02]]).1
  = 2.
Proof.
  apply (frame_indices_gapless (set_ws (Some WsOpen) (new_recorder (JInt 10))) blank
           [Screenshot [x01]; NoData; CdpFailure ConnectionError; Screenshot [x02]]).
Defined.

Lemma frame_directory_purged_witness :
  (2 ≤ frame_count three_frames)%nat
  ∧ purged "/tmp/dusk-screenshots"
      (fs (create_video (JStr "/tmp/dusk-recording.mp4")
                        (FfmpegExit 1 None "Invalid data") three_frames blank).1).
Proof.
  split; [simpl; lia|].
  apply (proj1 (frame_directory_purged three_frames blank)).
  simpl; lia.
Defined.

End FrameSampler.

(** ** The control server of [screenshot_recorder.py] *)

Module ControlServer.
Import SysFacts ScreenshotRecorder FrameNotions.

(** *** Sample requests *)

(** *** Start *)





(** *** Stop *)

(** On a server that has never been started, Stop is refused and nothing
    changes. *)
Lemma stop_before_any_start (b : body) (e : env) (s : server) :
  cls_recorder s = None →
  do_POST "/stop" b e s = (s, Error 400 "No recording in progress").
Proof. intros H. unfold do_POST. simpl. unfold post_stop. by rewrite H. Qed.

(** C6 at that input: the session is idle after the first Stop, yet the
    second Stop is answered [stopped] like the first, and the encoder has
    been run a second time. *)
Lemma second_stop_not_refused :
  let result := run stop_twice init in
  result.2 = [recording_reply;
              Json200 [("status", JStr "stopped"); ("output", JStr "/tmp/dusk-recording.mp4")];
              Json200 [("status", JStr "stopped"); ("output", JNull)]]
  ∧ length (encodes (wld result.1)) = 2
  ∧ cls_recorder result.1 = Some 0.
Proof. vm_compute. done. Qed.

(** *** Unknown paths and malformed bodies *)




End ControlServer.

(** ** Child processes *)

Module ProcFacts.
Import ProcNotions.

Lemma proc_at_update (pid : nat) (f : proc → proc) (m : machine) :
  proc_at pid (update_proc pid f m) = f <$> proc_at pid m.
Proof.
  unfold update_proc. destruct (proc_at pid m) as [p|] eqn:E; [|by rewrite E].
  destruct pid as [|i]; [done|]. simpl in *.
  rewrite list_lookup_insert_eq; [done|]. by eapply lookup_lt_Some.
Qed.

Lemma proc_at_update_ne (pid pid' : nat) (f : proc → proc) (m : machine) :
  pid ≠ pid' → proc_at pid' (update_proc pid f m) = proc_at pid' m.
Proof.
  intros Hne. unfold update_proc. destruct (proc_at pid m) as [p|] eqn:E; [|done].
  destruct pid as [|i]; [done|]. destruct pid' as [|j]; [done|]. simpl.
  apply list_lookup_insert_ne. congruence.
Qed.

Lemma proc_at_send_signal (pid : nat) (s : signal) (m : machine) :
  proc_at pid (send_signal pid s m) = deliver s <$> proc_at pid m.
Proof. unfold send_signal. by rewrite proc_at_update. Qed.

Lemma proc_at_send_signal_ne (pid pid' : nat) (s : signal) (m : machine) :
  pid ≠ pid' → proc_at pid' (send_signal pid s m) = proc_at pid' m.
Proof. intros. unfold send_signal. by rewrite proc_at_update_ne. Qed.

Lemma calls_update (pid : nat) (f : proc → proc) (m : machine) :
  calls (update_proc pid f m) = calls m.
Proof. unfold update_proc. by destruct (proc_at pid m). Qed.

Lemma disk_update (pid : nat) (f : proc → proc) (m : machine) :
  disk (update_proc pid f m) = disk m.
Proof. unfold update_proc. by destruct (proc_at pid m). Qed.

Lemma out_update (pid : nat) (f : proc → proc) (m : machine) :
  out (update_proc pid f m) = out m.
Proof. unfold update_proc. by destruct (proc_at pid m). Qed.

Lemma length_procs_update (pid : nat) (f : proc → proc) (m : machine) :
  length (procs (update_proc pid f m)) = length (procs m).
Proof.
  unfold update_proc. destruct (proc_at pid m); [|done]. simpl. apply length_insert.
Qed.

Lemma send_signal_disk (pid : nat) (s : signal) (m : machine) :
  disk (send_signal pid s m) = disk m.
Proof. unfold send_signal. by rewrite disk_update. Qed.

Lemma send_signal_calls (pid : nat) (s : signal) (m : machine) :
  calls (send_signal pid s m) = (calls m ++ [SendSignal pid s])%list.
Proof. unfold send_signal. by rewrite calls_update. Qed.

Lemma wait_result (pid : nat) (t : option nat) (m : machine) :
  (wait pid t m).2 = gone_within t pid m.
Proof. unfold wait, gone_within. destruct (proc_at pid m) as [p|]; [|done]. by destruct (exits_within t p). Qed.

Lemma wait_calls (pid : nat) (t : option nat) (m : machine) :
  calls (wait pid t m).1 = (calls m ++ [Wait pid t])%list.
Proof.
  unfold wait. destruct (proc_at pid m) as [p|]; [|done].
  destruct (exits_within t p); [|done]. simpl. by rewrite calls_update.
Qed.

Lemma wait_disk (pid : nat) (t : option nat) (m : machine) :
  disk (wait pid t m).1 = disk m.
Proof.
  unfold wait. destruct (proc_at pid m) as [p|]; [|done].
  destruct (exits_within t p); [|done]. simpl. by rewrite disk_update.
Qed.

Lemma wait_gone (pid : nat) (t : option nat) (m : machine) :
  (wait pid t m).2 = true → poll_is_none pid (wait pid t m).1 = false.
Proof.
  unfold wait, poll_is_none. destruct (proc_at pid m) as [p|] eqn:E.
  - destruct (exits_within t p); [|done]. simpl. intros _.
    rewrite proc_at_update. change (proc_at pid (log (Wait pid t) m)) with (proc_at pid m).
    by rewrite E.
  - simpl. change (proc_at pid (log (Wait pid t) m)) with (proc_at pid m). by rewrite E.
Qed.

Lemma wait_other (pid pid' : nat) (t : option nat) (m : machine) :
  pid ≠ pid' → proc_at pid' (wait pid t m).1 = proc_at pid' m.
Proof.
  intros Hne. unfold wait. destruct (proc_at pid m) as [p|]; [|done].
  destruct (exits_within t p); [|done]. simpl. by rewrite proc_at_update_ne.
Qed.

Lemma killed_gone (pid : nat) (m : machine) :
  poll_is_none pid (send_signal pid SIGKILL m) = false.
Proof.
  unfold poll_is_none. rewrite proc_at_send_signal.
  change (proc_at pid (log (SendSignal pid SIGKILL) m)) with (proc_at pid m).
  by destruct (proc_at pid m).
Qed.

Lemma path_exists_file (fs : FS) (p : string) (v : bytes) :
  files fs !! p = Some v → path_exists fs p = true.
Proof.
  intros H. unfold path_exists. rewrite H.
  rewrite (bool_decide_eq_true_2 (is_Some (Some v))) by eauto.
  by rewrite orb_true_r.
Qed.

Lemma not_exists_no_file (fs : FS) (p : string) :
  path_exists fs p = false → files fs !! p = None.
Proof.
  unfold path_exists. rewrite !orb_false_iff. intros [[_ H] _].
  apply bool_decide_eq_false in H. destruct (files fs !! p); [|done].
  exfalso. apply H. eauto.
Qed.

End ProcFacts.

(** ** The StreamingEncoder session of [record_test.py] *)

Module StreamingEncoder.
Import SysFacts ProcFacts RecordTest ProcNotions.

Lemma timed_out_wait (pid : nat) (m : machine) :
  negb (wait pid (Some 10) (send_signal pid SIGINT m)).2 = timed_out pid m.
Proof.
  rewrite wait_result. unfold gone_within, timed_out.
  rewrite proc_at_send_signal.
  change (proc_at pid (log (SendSignal pid SIGINT) m)) with (proc_at pid m).
  destruct (proc_at pid m) as [[name st g]|]; [|done].
  unfold exits_within, alive, reacts_within. simpl.
  destruct st; simpl; try done; by destruct g.
Qed.

Lemma encoder_stopped_calls (pid : nat) (m : machine) :
  calls (encoder_stopped pid m)
  = (calls m ++ [SendSignal pid SIGINT; Wait pid (Some 10)]
     ++ if timed_out pid m then [SendSignal pid SIGKILL; Wait pid None] else [])%list.
Proof.
  rewrite <- timed_out_wait. unfold encoder_stopped.
  destruct (wait pid (Some 10) (send_signal pid SIGINT m)) as [m2 ok] eqn:E.
  assert (calls m2 = (calls m ++ [SendSignal pid SIGINT; Wait pid (Some 10)])%list) as Hc.
  { change m2 with (m2, ok).1. rewrite <- E, wait_calls, send_signal_calls.
    by rewrite <- app_assoc. }
  simpl. destruct ok; simpl; [done|].
  rewrite wait_calls, send_signal_calls, Hc. by rewrite <- !app_assoc.
Qed.

Lemma encoder_stopped_disk (pid : nat) (m : machine) :
  disk (encoder_stopped pid m) = disk m.
Proof.
  unfold encoder_stopped.
  destruct (wait pid (Some 10) (send_signal pid SIGINT m)).2.
  - by rewrite wait_disk, send_signal_disk.
  - by rewrite wait_disk, send_signal_disk, wait_disk, send_signal_disk.
Qed.

Lemma encoder_stopped_gone (pid : nat) (m : machine) :
  poll_is_none pid (encoder_stopped pid m) = false.
Proof.
  unfold encoder_stopped.
  destruct (wait pid (Some 10) (send_signal pid SIGINT m)).2 eqn:E.
  - by apply wait_gone.
  - set (m2 := (wait pid (Some 10) (send_signal pid SIGINT m)).1).
    pose proof (killed_gone pid m2) as Hk.
    apply wait_gone. rewrite wait_result. unfold gone_within.
    unfold poll_is_none in Hk.
    destruct (proc_at pid (send_signal pid SIGKILL m2)) as [p|]; [|done].
    unfold exits_within. unfold alive in Hk. by destruct (pst p).
Qed.

Lemma stop_unfold (left : option bytes) (r : ScreenRecorder) (m : machine) (pid : nat) :
  process r = Some pid →
  stop left r m
  = let m3 := encoder_stopped pid m in
    let m4 := match left with
              | Some v => on_disk (write_file (temp_file r) v) m3
              | None => m3
              end in
    if path_exists (disk m4) (temp_file r) then
      (on_disk (move (temp_file r) (output_file r))
               (on_disk (makedirs (parent (output_file r))) m4),
       Some (output_file r))
    else (m4, None).
Proof.
  intros Hp. unfold stop, encoder_stopped. rewrite Hp.
  by destruct (wait pid (Some 10) (send_signal pid SIGINT m)) as [m2 []].
Qed.

(** C5.  Ending a StreamingEncoder session first sends SIGINT and waits up
    to ten seconds; SIGKILL follows exactly when the encoder has not gone
    by then, and nothing else is done to the encoder, which is gone
    afterwards.  If there is a file at the temporary path then, it ends
    up at the output path and the output path is returned; if nothing
    exists at the temporary path, no path is returned and the disk is
    untouched. *)
Theorem stop_graceful_then_move (left : option bytes) (r : ScreenRecorder)
    (m : machine) (pid : nat) :
  process r = Some pid →
  let end_ := stop left r m in
  calls end_.1
  = (calls m ++ [SendSignal pid SIGINT; Wait pid (Some 10)]
     ++ if timed_out pid m then [SendSignal pid SIGKILL; Wait pid None] else [])%list
  ∧ poll_is_none pid end_.1 = false
  ∧ (∀ v, temporary left r m = Some v →
       end_.2 = Some (output_file r)
       ∧ files (disk end_.1) !! output_file r = Some v
       ∧ (temp_file r ≠ output_file r → files (disk end_.1) !! temp_file r = None))
  ∧ (left = None → path_exists (disk m) (temp_file r) = false →
       end_.2 = None ∧ disk end_.1 = disk m).
Proof.
  intros Hp end_. subst end_. rewrite (stop_unfold left r m pid Hp).
  pose proof (encoder_stopped_calls pid m) as Hc.
  pose proof (encoder_stopped_disk pid m) as Hd.
  pose proof (encoder_stopped_gone pid m) as Hg.
  set (m3 := encoder_stopped pid m) in *. simpl.
  split; [|split; [|split]].
  - destruct left as [v|]; simpl; destruct (path_exists _ _); simpl; done.
  - destruct left as [v|]; simpl; destruct (path_exists _ _); simpl; done.
  - intros v Hv. destruct left as [v'|]; simpl in Hv.
    + injection Hv as ->.
      erewrite path_exists_file by (simpl; apply lookup_insert_eq). simpl.
      unfold move. simpl. rewrite lookup_insert_eq. simpl.
      split; [done|]. split; [apply lookup_insert_eq|].
      intros Hne. rewrite lookup_insert_ne by done. apply lookup_delete_eq.
    + rewrite Hd. erewrite path_exists_file by done. simpl.
      unfold move. simpl. rewrite Hd, Hv. simpl.
      split; [done|]. split; [apply lookup_insert_eq|].
      intros Hne. rewrite lookup_insert_ne by done. apply lookup_delete_eq.
  - intros -> Hno. simpl. rewrite Hd, Hno. simpl. by rewrite Hd.
Qed.


Lemma stop_graceful_then_move_witness :
  process login_recorder = Some 1
  ∧ calls (stop (Some [x1a; x45]) login_recorder encoding).1
    = [Spawn "ffmpeg" 1; SendSignal 1 SIGINT; Wait 1 (Some 10)].
Proof.
  split; [reflexivity|].
  apply (stop_graceful_then_move (Some [x1a; x45]) login_recorder encoding 1).
  reflexivity.
Defined.

(** An encoder that ignores SIGINT is killed after the ten seconds; with
    nothing at the temporary path, no path comes back. *)
Lemma stop_kills_stuck_encoder :
  let end_ := stop None login_recorder stuck_encoding in
  calls end_.1 = [Spawn "ffmpeg" 1; SendSignal 1 SIGINT; Wait 1 (Some 10);
                  SendSignal 1 SIGKILL; Wait 1 None]
  ∧ pst <$> procs end_.1 = [Exited]
  ∧ end_.2 = None.
Proof. vm_compute. done. Qed.


End StreamingEncoder.

(** ** The exit hook of [entrypoint.py] *)

Module ServiceCleanup.
Import ProcFacts Entrypoint ProcNotions.

Lemma wait_length (pid : nat) (t : option nat) (m : machine) :
  length (procs (wait pid t m).1) = length (procs m).
Proof.
  unfold wait. destruct (proc_at pid m) as [p|]; [|done].
  destruct (exits_within t p); [|done]. simpl. by rewrite length_procs_update.
Qed.

Lemma send_signal_length (pid : nat) (s : signal) (m : machine) :
  length (procs (send_signal pid s m)) = length (procs m).
Proof. unfold send_signal. by rewrite length_procs_update. Qed.

Lemma stop_one_length (np : string * nat) (m : machine) :
  length (procs (stop_one np m)) = length (procs m).
Proof.
  unfold stop_one. destruct (poll_is_none np.2 m); [|done].
  destruct (wait np.2 (Some 5) (send_signal np.2 SIGTERM m)) as [m2 ok] eqn:E.
  assert (length (procs m2) = length (procs m)) as Hl.
  { change m2 with (m2, ok).1. by rewrite <- E, wait_length, send_signal_length. }
  destruct ok; simpl; [done|]. by rewrite send_signal_length.
Qed.

(** A child that [stop_one] was called for is gone. *)
Lemma stop_one_dead (np : string * nat) (m : machine) :
  poll_is_none np.2 (stop_one np m) = false.
Proof.
  unfold stop_one. destruct (poll_is_none np.2 m) eqn:Ep; [|done].
  destruct (wait np.2 (Some 5) (send_signal np.2 SIGTERM m)) as [m2 ok] eqn:E.
  destruct ok.
  - change m2 with (m2, true).1. rewrite <- E.
    change (poll_is_none np.2 (echo ("Stopped " +:+ np.1) ?x))
      with (poll_is_none np.2 x).
    apply wait_gone. by rewrite E.
  - apply (killed_gone np.2 m2).
Qed.

(** A child that is gone stays gone. *)
Lemma stop_one_keeps_dead (pid : nat) (np : string * nat) (m : machine) :
  poll_is_none pid m = false → poll_is_none pid (stop_one np m) = false.
Proof.
  intros Hd. destruct (decide (pid = np.2)) as [->|Hne]; [apply stop_one_dead|].
  assert (proc_at pid (stop_one np m) = proc_at pid m) as Heq.
  { unfold stop_one. destruct (poll_is_none np.2 m); [|done].
    destruct (wait np.2 (Some 5) (send_signal np.2 SIGTERM m)) as [m2 ok] eqn:E.
    assert (proc_at pid m2 = proc_at pid m) as H2.
    { change m2 with (m2, ok).1. rewrite <- E.
      rewrite wait_other by done. by apply proc_at_send_signal_ne. }
    destruct ok; [done|].
    change (proc_at pid (send_signal np.2 SIGKILL m2) = proc_at pid m).
    rewrite proc_at_send_signal_ne by done. done. }
  unfold poll_is_none in *. by rewrite Heq.
Qed.

Lemma stop_list_keeps_dead (pid : nat) (l : list (string * nat)) :
  ∀ m, poll_is_none pid m = false →
       poll_is_none pid (fold_left (λ acc np, stop_one np acc) l m) = false.
Proof.
  induction l as [|np l IH]; intros m Hd; [done|].
  simpl. by apply IH, stop_one_keeps_dead.
Qed.

Lemma stop_list_dead (pid : nat) (l : list (string * nat)) :
  ∀ m, pid ∈ l.*2 →
       poll_is_none pid (fold_left (λ acc np, stop_one np acc) l m) = false.
Proof.
  induction l as [|np l IH]; intros m Hin; [by apply elem_of_nil in Hin|].
  simpl in *. apply elem_of_cons in Hin as [->|Hin].
  - apply stop_list_keeps_dead, stop_one_dead.
  - by apply IH.
Qed.

Lemma stop_list_length (l : list (string * nat)) :
  ∀ m, length (procs (fold_left (λ acc np, stop_one np acc) l m)) = length (procs m).
Proof.
  induction l as [|np l IH]; intros m; [done|].
  simpl. by rewrite IH, stop_one_length.
Qed.

(** [stop_all] leaves no managed child alive, however each of them reacts
    to SIGTERM. *)
Lemma stop_all_none_alive (sm : ServiceManager) (m : machine) :
  managed sm m → none_alive (stop_all sm m).
Proof.
  intros Hm. unfold none_alive. apply Forall_lookup. intros i p Hi.
  assert (i < length (procs m))%nat as Hlt.
  { unfold stop_all in Hi. apply lookup_lt_Some in Hi.
    by rewrite stop_list_length in Hi. }
  assert (S i ∈ sm.*2) as Hin.
  { rewrite Hm. apply elem_of_seq. lia. }
  assert (poll_is_none (S i) (stop_all sm m) = false) as Hdead.
  { unfold stop_all. apply stop_list_dead.
    rewrite fmap_reverse. by apply elem_of_reverse. }
  unfold poll_is_none in Hdead. simpl in Hdead. by rewrite Hi in Hdead.
Qed.

Lemma popen_managed (name label : string) (sm : ServiceManager) (m : machine) (pid : nat) :
  managed sm m → (popen name m).2 = Ok pid →
  managed (sm ++ [(label, pid)])%list (popen name m).1.
Proof.
  unfold managed, popen. intros Hm. destruct (installed m !! name); [|done].
  simpl. intros [= <-]. rewrite fmap_app, length_app, Hm. simpl.
  rewrite Nat.add_1_r, seq_S. done.
Qed.

Lemma popen_failed (name : string) (m : machine) (e : exn) :
  (popen name m).2 = Raise e → (popen name m).1 = m.
Proof. unfold popen. by destruct (installed m !! name). Qed.

Lemma start_xvfb_managed sig display_ok (sm : ServiceManager) (m : machine) :
  managed sm m →
  managed (start_xvfb sig display_ok sm m).1.1 (start_xvfb sig display_ok sm m).1.2.
Proof.
  intros Hm. unfold start_xvfb.
  pose proof (popen_managed "Xvfb" "Xvfb" sm m) as Hp.
  pose proof (popen_failed "Xvfb" m) as Hf.
  destruct (popen "Xvfb" m) as [m1 [pid|e]]; simpl in *.
  - specialize (Hp pid Hm eq_refl).
    destruct (arrives sig InXvfbStartup); [done|].
    destruct (arrives sig InDisplayCheck) as [[]|]; try done.
    by destruct display_ok.
  - by rewrite (Hf e).
Qed.

Lemma start_chromedriver_managed sig (sm : ServiceManager) (m : machine) :
  managed sm m →
  managed (start_chromedriver sig sm m).1.1 (start_chromedriver sig sm m).1.2.
Proof.
  intros Hm. unfold start_chromedriver.
  pose proof (popen_managed "chromedriver" "ChromeDriver" sm m) as Hp.
  pose proof (popen_failed "chromedriver" m) as Hf.
  destruct (popen "chromedriver" m) as [m1 [pid|e]]; simpl in *.
  - specialize (Hp pid Hm eq_refl).
    destruct (arrives sig InChromedriverStartup); [done|].
    by destruct (poll_is_none pid m1).
  - by rewrite (Hf e).
Qed.

Lemma main_body_managed sig display_ok rc (m : machine) :
  procs m = [] →
  managed (main_body sig display_ok rc m).1.1 (main_body sig display_ok rc m).1.2.
Proof.
  intros Hm. unfold main_body.
  assert (managed [] m) as H0 by (unfold managed; by rewrite Hm).
  pose proof (start_xvfb_managed sig display_ok [] m H0) as H1.
  destruct (start_xvfb sig display_ok [] m) as [[sm m1] [[]|e|s]]; simpl in *; try done.
  pose proof (start_chromedriver_managed sig sm m1 H1) as H2.
  destruct (start_chromedriver sig sm m1) as [[sm2 m2] [[]|e|s]]; simpl in *; try done.
  by destruct (run_recording sig rc m2).
Qed.

Lemma on_signal_dies {A : Type} (s s' : signal) :
  @on_signal A s = Dies s' → s = SIGKILL ∧ s' = SIGKILL.
Proof. destruct s; simpl; intros [= <-]; done. Qed.

Lemma arrives_some (sig : option (signal * moment)) (t : moment) (s : signal) :
  arrives sig t = Some s → sig = Some (s, t).
Proof.
  unfold arrives. destruct sig as [[s' t']|]; [|done].
  destruct (decide (t' = t)) as [->|]; [|done]. by intros [= ->].
Qed.

Lemma start_xvfb_dies sig display_ok (sm : ServiceManager) (m : machine) (s : signal) :
  (start_xvfb sig display_ok sm m).2 = Dies s → s = SIGKILL ∧ ∃ t, sig = Some (SIGKILL, t).
Proof.
  unfold start_xvfb. destruct (popen "Xvfb" m) as [m1 [pid|e]]; [|done].
  destruct (arrives sig InXvfbStartup) as [s1|] eqn:E1.
  - simpl. intros H. apply on_signal_dies in H as [-> ->].
    apply arrives_some in E1. eauto.
  - destruct (arrives sig InDisplayCheck) as [s2|] eqn:E2.
    + apply arrives_some in E2. destruct s2; simpl; intros [= <-]; eauto.
    + by destruct display_ok.
Qed.

Lemma start_chromedriver_dies sig (sm : ServiceManager) (m : machine) (s : signal) :
  (start_chromedriver sig sm m).2 = Dies s → s = SIGKILL ∧ ∃ t, sig = Some (SIGKILL, t).
Proof.
  unfold start_chromedriver. destruct (popen "chromedriver" m) as [m1 [pid|e]]; [|done].
  destruct (arrives sig InChromedriverStartup) as [s1|] eqn:E1.
  - simpl. intros H. apply on_signal_dies in H as [-> ->].
    apply arrives_some in E1. eauto.
  - by destruct (poll_is_none pid m1).
Qed.

Lemma run_recording_dies sig rc (m : machine) (s : signal) :
  run_recording sig rc m = Dies s → s = SIGKILL ∧ ∃ t, sig = Some (SIGKILL, t).
Proof.
  unfold run_recording. destruct (installed m !! "python3"); [|done].
  destruct (arrives sig InRecording) as [s1|] eqn:E1; [|done].
  intros H. apply on_signal_dies in H as [-> ->]. apply arrives_some in E1. eauto.
Qed.

(** Only a signal that cannot be caught makes [main] die on the spot. *)
Lemma main_body_dies sig display_ok rc (m : machine) (s : signal) :
  (main_body sig display_ok rc m).2 = Dies s → s = SIGKILL ∧ ∃ t, sig = Some (SIGKILL, t).
Proof.
  unfold main_body.
  pose proof (start_xvfb_dies sig display_ok [] m) as H1.
  destruct (start_xvfb sig display_ok [] m) as [[sm m1] [[]|e|s1]]; simpl in *; try done.
  - pose proof (start_chromedriver_dies sig sm m1) as H2.
    destruct (start_chromedriver sig sm m1) as [[sm2 m2] [[]|e|s2]]; simpl in *; try done.
    + pose proof (run_recording_dies sig rc m2) as H3.
      destruct (run_recording sig rc m2); simpl; try done.
      intros [= <-]. by apply H3.
    + intros [= <-]. by apply H2.
  - intros [= <-]. by apply H1.
Qed.

(** An interrupt or terminate signal, wherever it finds [main], ends in the
    exit hook: no service is left alive.  So does every exit without a
    signal. *)
Lemma signal_runs_cleanup (sig : option (signal * moment)) (display_ok : bool)
    (rc : Z) (m : machine) :
  procs m = [] →
  (∀ t, sig ≠ Some (SIGKILL, t)) →
  none_alive (main sig display_ok rc m).1.
Proof.
  intros Hm Hsig. unfold main.
  pose proof (main_body_managed sig display_ok rc m Hm) as Hman.
  pose proof (main_body_dies sig display_ok rc m) as Hdies.
  destruct (main_body sig display_ok rc m) as [[sm m1] [c|e|s]]; simpl in *.
  - by apply stop_all_none_alive.
  - destruct e; by apply stop_all_none_alive.
  - destruct (Hdies s eq_refl) as [_ [t ->]]. by destruct (Hsig t).
Qed.

End ServiceCleanup.

(** ** The sessions of [headless_recorder.py] *)

Module HeadlessSession.
Import ProcFacts HeadlessRecorder ProcNotions.

(** *** The size of the screen *)

Lemma video_size_default : video_size SCREEN_SIZE = Ok "1920x1080".
Proof. reflexivity. Qed.

Lemma split_from_cons (sep : ascii) (cs cur : list ascii) :
  ∃ a l, split_from sep cur cs = a :: l.
Proof.
  revert cur. induction cs as [|c cs IH]; intros cur; simpl; [eauto|].
  destruct (bool_decide (c = sep)); [eauto | apply IH].
Qed.

Lemma split_from_sep (sep : ascii) (cs cur : list ascii) :
  sep ∈ cs → ∃ a b l, split_from sep cur cs = a :: b :: l.
Proof.
  revert cur. induction cs as [|c cs IH]; intros cur Hin.
  - by apply elem_of_nil in Hin.
  - simpl. destruct (bool_decide (c = sep)) eqn:E.
    + destruct (split_from_cons sep cs []) as (b & l & ->). eauto.
    + apply bool_decide_eq_false in E. apply elem_of_cons in Hin as [->|Hin]; [done|].
      by apply IH.
Qed.

(** A size with an [x] in it has the two parts the ffmpeg command takes. *)
Lemma video_size_x (size : string) :
  "x"%char ∈ list_ascii_of_string size → ∃ v, video_size size = Ok v.
Proof.
  intros H. unfold video_size, str_split.
  destruct (split_from_sep "x" _ [] H) as (a & b & l & ->). eauto.
Qed.

(** *** Signals during [run] *)

(** C2 at SIGTERM: the [run] command installs no handler, so the signal
    ends the script on the spot.  [recorder.stop()] in the [finally]
    clause is not reached: nothing is sent to the two children, and both
    are still running. *)
Lemma terminate_skips_cleanup :
  let end_ := run_with_recording "recording.mp4" DISPLAY_NUM (Some SIGTERM) 0 host in
  end_.2 = KilledBy SIGTERM
  ∧ procs end_.1 = [mkProc "Xvfb" Running (Some 1); mkProc "ffmpeg" Running (Some 1)]
  ∧ calls end_.1 = [Spawn "Xvfb" 1; Spawn "ffmpeg" 2].
Proof. vm_compute. done. Qed.

(** The same for every machine on which both programs start. *)
Lemma terminate_leaves_children (output_file : string) (display : nat) (rc : Z)
    (m : machine) (x f : program) :
  installed m !! "Xvfb" = Some x → starts x = true →
  installed m !! "ffmpeg" = Some f → starts f = true →
  let end_ := run_with_recording output_file display (Some SIGTERM) rc m in
  end_.2 = KilledBy SIGTERM
  ∧ poll_is_none (S (length (procs m))) end_.1 = true
  ∧ poll_is_none (S (S (length (procs m)))) end_.1 = true
  ∧ calls end_.1 = (calls m ++ [Spawn "Xvfb" (S (length (procs m)));
                                Spawn "ffmpeg" (S (S (length (procs m))))])%list.
Proof.
  intros Hx Hsx Hf Hsf. unfold run_with_recording, rec_start_xvfb, rec_start_recording, popen.
  simpl. rewrite Hx. simpl. rewrite Hf. simpl. rewrite Hsx, Hsf.
  unfold poll_is_none. simpl. rewrite length_app. simpl.
  rewrite <- !app_assoc. simpl.
  rewrite (lookup_app_r (procs m)) by lia. rewrite Nat.sub_diag. simpl.
  rewrite (lookup_app_r (procs m)) by lia.
  replace (S (length (procs m)) - length (procs m)) with 1 by lia.
  rewrite Nat.add_1_r. done.
Qed.

(** An interrupt, by contrast, is raised as [KeyboardInterrupt] and so
    passes through the [finally] clause: the calls of [rec_stop] follow. *)
Lemma interrupt_runs_stop :
  let end_ := run_with_recording "recording.mp4" DISPLAY_NUM (Some SIGINT) 0 host in
  end_.2 = Traceback KeyboardInterrupt
  ∧ calls end_.1 = [Spawn "Xvfb" 1; Spawn "ffmpeg" 2;
                    WriteStdin 2 "q"; Wait 2 (Some 5); SendSignal 1 SIGTERM].
Proof. vm_compute. done. Qed.

(** *** A failed start *)

(** C7 where ffmpeg cannot be launched: [start_recording] ends in the
    exception with the display it has just started still running, nothing
    sent to it, and no pid file by which a later [stop] could find it. *)
Lemma display_left_running :
  let end_ := start_recording "recording.mp4" DISPLAY_NUM SCREEN_SIZE host_without_ffmpeg in
  end_.2 = Raise FileNotFoundError
  ∧ procs end_.1 = [mkProc "Xvfb" Running (Some 1)]
  ∧ calls end_.1 = [Spawn "Xvfb" 1]
  ∧ files (disk end_.1) !! PID_FILE = None
  ∧ procs (stop_recording end_.1).1 = [mkProc "Xvfb" Running (Some 1)].
Proof. vm_compute. done. Qed.

(** The same for every machine with Xvfb and without ffmpeg, and for
    every size: one without an [x] ends the start even before ffmpeg is
    looked for. *)
Lemma failed_start_keeps_display (output_file : string) (display : nat) (size : string)
    (m : machine) (x : program) :
  installed m !! "Xvfb" = Some x → starts x = true →
  installed m !! "ffmpeg" = None →
  let end_ := start_recording output_file display size m in
  end_.2 = Raise (match video_size size with
                  | Ok _ => FileNotFoundError
                  | Raise e => e
                  end)
  ∧ poll_is_none (S (length (procs m))) end_.1 = true
  ∧ calls end_.1 = (calls m ++ [Spawn "Xvfb" (S (length (procs m)))])%list
  ∧ files (disk end_.1) = files (disk m).
Proof.
  intros Hx Hsx Hf. unfold start_recording, rec_start_xvfb, rec_start_recording, popen.
  simpl. rewrite Hx. simpl. destruct (video_size size) as [v|e]; simpl.
  - rewrite Hf. simpl. rewrite Hsx.
    unfold poll_is_none. simpl.
    rewrite (lookup_app_r (procs m)) by lia. by rewrite Nat.sub_diag.
  - rewrite Hsx. unfold poll_is_none. simpl.
    rewrite (lookup_app_r (procs m)) by lia. by rewrite Nat.sub_diag.
Qed.

(** [run] has the same gap: the two starts precede the [try]. *)
Lemma failed_run_keeps_display :
  let end_ := run_with_recording "recording.mp4" DISPLAY_NUM None 0 host_without_ffmpeg in
  end_.2 = Traceback FileNotFoundError
  ∧ procs end_.1 = [mkProc "Xvfb" Running (Some 1)]
  ∧ calls end_.1 = [Spawn "Xvfb" 1].
Proof. vm_compute. done. Qed.

(** *** Start and Stop out of turn *)

(** [start] does not look for a session in progress: a second one starts
    a second display and encoder and overwrites the pid file, and [stop]
    then reaches the second pair only. *)
Lemma second_start_orphans_first :
  let m1 := (start_recording "a.mp4" DISPLAY_NUM SCREEN_SIZE host).1 in
  let m2 := (start_recording "b.mp4" DISPLAY_NUM SCREEN_SIZE m1).1 in
  load_pids m2 = Ok (Some (3, 4, "b.mp4"))
  ∧ pst <$> procs m2 = [Running; Running; Running; Running]
  ∧ pst <$> procs (stop_recording m2).1 = [Running; Running; Stopping; Stopping].
Proof. vm_compute. done. Qed.

(** Without a pid file [stop] prints its message and does nothing else. *)
Lemma stop_without_session (m : machine) :
  files (disk m) !! PID_FILE = None →
  stop_recording m = (echo "No recording in progress" m, Ok tt).
Proof. intros H. unfold stop_recording, load_pids. by rewrite H. Qed.

(** And [stop] removes the pid file, so that a second [stop] is refused. *)
Lemma stop_then_stop_refused :
  let m1 := (start_recording "a.mp4" DISPLAY_NUM SCREEN_SIZE host).1 in
  let m2 := (stop_recording m1).1 in
  files (disk m2) !! PID_FILE = None
  ∧ stop_recording m2 = (echo "No recording in progress" m2, Ok tt).
Proof. vm_compute. done. Qed.

End HeadlessSession.

(** ** More on the screenshot recorder *)

Module RecorderMore.
Import SysFacts FrameNames ScreenshotRecorder FrameNotions MoreNotions FrameSampler.

(** X1.  In any directory, [save_frame] gives two frames the same file
    exactly when they have the same index: the zero-padded names neither
    collide nor truncate, also beyond six digits. *)
Theorem frame_files_distinct (d : string) (i j : nat) :
  path_join d (frame_name i) = path_join d (frame_name j) ↔ i = j.
Proof.
  split; [apply frame_file_inj | by intros ->].
Qed.

(** *** The encode step *)



(** X3.  When the encode cannot be launched at all (ffmpeg is missing, or
    the output path is no string), [create_video] raises and no file is
    touched: the frames stay in the frame directory. *)
Theorem create_video_raise_keeps_frames (r : recorder) (w : world)
    (output_file : json) (run : ffmpeg_run) :
  (2 ≤ frame_count r)%nat →
  run = FfmpegMissing ∨ (∀ out, output_file ≠ JStr out) →
  let res := create_video output_file run r w in
  (∃ e, res.2 = Raise e)
  ∧ files (fs res.1) = files (fs w)
  ∧ stdout res.1 = stdout w.
Proof.
  intros Hge Hcase res. subst res. unfold create_video.
  destruct (Nat.ltb_spec (frame_count r) 2) as [Hlt|_]; [lia|].
  destruct output_file as [| | |out| |]; simpl; eauto.
  destruct Hcase as [->|Hno]; [simpl; eauto|]. by destruct (Hno out).
Qed.

Lemma create_video_raise_keeps_frames_witness :
  (2 ≤ frame_count three_frames)%nat
  ∧ files (fs (create_video (JStr "/tmp/dusk-recording.mp4") FfmpegMissing
                            three_frames blank).1)
    = files (fs blank).
Proof.
  split; [simpl; lia|].
  apply (create_video_raise_keeps_frames three_frames blank
           (JStr "/tmp/dusk-recording.mp4") FfmpegMissing).
  - simpl; lia.
  - left; reflexivity.
Defined.

End RecorderMore.

(** ** More on the control server *)

Module ServerMore.
Import SysFacts FrameNames ScreenshotRecorder FrameNotions MoreNotions FrameSampler.

Lemma store_lookup (a : nat) (r r' : recorder) (s : server) :
  heap s !! a = Some r → heap (store a r' s) !! a = Some r'.
Proof.
  intros H. unfold store. simpl. apply list_lookup_insert_eq. by eapply lookup_lt_Some.
Qed.

(** A start that succeeds hands over a recorder whose frame directory is
    numbered from nothing. *)
Lemma start_numbered (s : server) (kv : list (string * json)) (url : string)
    (e : env) (ms : Z) :
  dict_get kv "debugger_url" JNull = JStr url →
  url ≠ "" →
  HAS_WEBSOCKET e = true →
  connection e = Ok tt →
  interval_of (dict_get kv "fps" (JInt 10)) = Ok ms →
  let s1 := (do_POST "/start" (Parsed (JDict kv)) e s).1 in
  cls_recorder s1 = Some (length (heap s))
  ∧ ∃ r, heap s1 !! length (heap s) = Some r
         ∧ numbered "/tmp/dusk-screenshots" (Some WsOpen) [] r (wld s1).
Proof.
  intros Hurl Hne Hws Hconn Hint s1. subst s1.
  unfold do_POST. simpl. unfold post_start. rewrite Hurl. simpl.
  assert ((url =? "")%string = false) as -> by (by apply String.eqb_neq).
  simpl. unfold connect_cdp. rewrite Hws, Hconn, Hint. simpl.
  split; [done|].
  set (r1 := set_ws (Some WsOpen) (new_recorder (dict_get kv "fps" (JInt 10)))).
  pose proof (numbered_start r1 (wld s)) as Hn.
  eexists. split; [|exact Hn].
  unfold store. simpl. rewrite list_lookup_insert_eq; [done|].
  rewrite length_insert, length_app. simpl. lia.
Qed.

Lemma post_frame_numbered (s : server) (a : nat) (r : recorder) (d : string)
    (ks : list bytes) (b : body) (e : env) :
  cls_recorder s = Some a →
  heap s !! a = Some r →
  numbered d (Some WsOpen) ks r (wld s) →
  let s' := (do_POST "/frame" b e s).1 in
  cls_recorder s' = Some a
  ∧ ∃ r', heap s' !! a = Some r'
          ∧ numbered d (Some WsOpen) (ks ++ successes (Some WsOpen) [screenshot e]) r' (wld s').
Proof.
  intros Hc Hr Hn s'. subst s'. unfold do_POST. simpl. unfold post_frame.
  rewrite Hc, Hr. pose proof Hn as [_ Hs _ _ _ _]. rewrite Hs.
  unfold take_screenshot_cdp. rewrite Hs.
  destruct (screenshot e) as [[|b0 data]| |x]; simpl; rewrite ?app_nil_r.
  - split; [done|]. exists r. split; [by eapply store_lookup | done].
  - split; [done|]. eexists. split; [by eapply store_lookup|].
    by apply (numbered_save d (Some WsOpen) ks (b0 :: data) r (wld s)).
  - split; [done|]. exists r. split; [by eapply store_lookup | done].
  - split; [done|]. by exists r.
Qed.

Lemma tick_numbered (s : server) (a : nat) (r : recorder) (d : string)
    (ks : list bytes) (o : cdp_reply) :
  cls_recorder s = Some a →
  heap s !! a = Some r →
  numbered d (Some WsOpen) ks r (wld s) →
  let s' := (step s (Tick a o)).1 in
  cls_recorder s' = Some a
  ∧ ∃ r', heap s' !! a = Some r'
          ∧ numbered d (Some WsOpen) (ks ++ successes (Some WsOpen) [o]) r' (wld s').
Proof.
  intros Hc Hr Hn s'. subst s'. unfold step. rewrite Hr.
  pose proof (numbered_step d (Some WsOpen) ks o r (wld s) Hn) as Hstep.
  destruct (capture_step o (r, wld s)) as [r1 w1]. cbn [fst snd] in *.
  split; [done|]. exists r1. split; [by eapply store_lookup | done].
Qed.

Lemma answers_cons (c : capture) (cs : list capture) :
  omap success (answers (c :: cs))
  = (successes (Some WsOpen) (answers [c]) ++ omap success (answers cs))%list.
Proof. simpl. by destruct (success _). Qed.

Lemma captures_numbered (d : string) (a : nat) (cs : list capture) :
  ∀ (s : server) (r : recorder) (ks : list bytes),
    cls_recorder s = Some a →
    heap s !! a = Some r →
    numbered d (Some WsOpen) ks r (wld s) →
    ∃ r', heap (run (capture_events a cs) s).1 !! a = Some r'
          ∧ numbered d (Some WsOpen) (ks ++ omap success (answers cs)) r'
                     (wld (run (capture_events a cs) s).1).
Proof.
  induction cs as [|c cs IH]; intros s r ks Hc Hr Hn.
  - simpl. rewrite app_nil_r. eauto.
  - rewrite answers_cons, app_assoc.
    assert (∃ ev, capture_events a (c :: cs) = ev :: capture_events a cs
                  ∧ cls_recorder (step s ev).1 = Some a
                  ∧ ∃ r1, heap (step s ev).1 !! a = Some r1
                          ∧ numbered d (Some WsOpen)
                                     (ks ++ successes (Some WsOpen) (answers [c]))
                                     r1 (wld (step s ev).1))
      as (ev & -> & Hc1 & r1 & Hr1 & Hn1).
    { destruct c as [b e|o].
      - exists (POST "/frame" b e). split; [done|].
        destruct (post_frame_numbered s a r d ks b e Hc Hr Hn) as (H1 & r1 & H2 & H3).
        simpl. destruct (do_POST "/frame" b e s) as [s1 rep]. eauto.
      - exists (Tick a o). split; [done|].
        destruct (tick_numbered s a r d ks o Hc Hr Hn) as (H1 & r1 & H2 & H3). eauto. }
    change (run (ev :: capture_events a cs) s)
      with (let '(s1, rep) := step s ev in
            let '(s2, rs) := run (capture_events a cs) s1 in
            (s2, match rep with Some x => x :: rs | None => rs end)).
    destruct (step s ev) as [s1 rep]. simpl in Hc1, Hr1, Hn1.
    destruct (IH s1 r1 _ Hc1 Hr1 Hn1) as (r' & Hr' & Hn').
    destruct (run (capture_events a cs) s1) as [s2 rs]. simpl in *.
    exists r'. by split.
Qed.

(** X4.  Manual and timed capture together: after a Start that succeeds,
    any run of /frame requests and turns of the session's capture thread,
    taken one at a time, leaves the new recorder with as many frames as
    captures brought a picture, the file with index [i] holding the
    [i]-th of them, whichever way it came; a capture that brings none, or
    that raises, writes nothing and does not advance the index. *)
Theorem mixed_captures_gapless (s : server) (kv : list (string * json)) (url : string)
    (e : env) (ms : Z) (cs : list capture) :
  dict_get kv "debugger_url" JNull = JStr url →
  url ≠ "" →
  HAS_WEBSOCKET e = true →
  connection e = Ok tt →
  interval_of (dict_get kv "fps" (JInt 10)) = Ok ms →
  let s1 := (do_POST "/start" (Parsed (JDict kv)) e s).1 in
  let s2 := (run (capture_events (length (heap s)) cs) s1).1 in
  let good := omap success (answers cs) in
  ∃ r, heap s2 !! length (heap s) = Some r
       ∧ frame_count r = length good
       ∧ ∀ i, files (fs (wld s2)) !! path_join "/tmp/dusk-screenshots" (frame_name i)
              = good !! i.
Proof.
  intros Hurl Hne Hws Hconn Hint s1 s2 good.
  destruct (start_numbered s kv url e ms Hurl Hne Hws Hconn Hint) as (Hc & r & Hr & Hn).
  destruct (captures_numbered _ _ cs _ r [] Hc Hr Hn) as (r' & Hr' & Hn').
  exists r'. destruct Hn' as [_ _ _ Hcount Hfile _]. simpl in *. done.
Qed.

Lemma mixed_captures_gapless_witness :
  ∃ r, heap (run (capture_events 0 [Manual NoBody browser_up; Timed NoData;
                                    Timed shot; Manual NoBody no_frames_left])
                 (do_POST "/start" start_body browser_up init).1).1 !! 0 = Some r
       ∧ frame_count r = 2.
Proof.
  destruct (mixed_captures_gapless init
              [("debugger_url", JStr "ws://127.0.0.1:9222/devtools/page/1")]
              "ws://127.0.0.1:9222/devtools/page/1" browser_up 100%Z
              [Manual NoBody browser_up; Timed NoData; Timed shot;
               Manual NoBody no_frames_left])
    as (r & Hr & Hc & _);
    [reflexivity | discriminate | reflexivity | reflexivity | reflexivity |].
  exists r. split; [exact Hr | exact Hc].
Defined.

End ServerMore.

(** ** Starts that fail and stops that are repeated *)

Module ServerEdge.
Import SysFacts ScreenshotRecorder FrameNotions MoreNotions.

Lemma heap_prefix_insert (l : list recorder) (x y : recorder) (a : nat) (r : recorder) :
  l !! a = Some r → <[ length l := y ]> (l ++ [x])%list !! a = Some r.
Proof.
  intros H. rewrite list_lookup_insert_ne.
  - by apply lookup_app_l_Some.
  - apply lookup_lt_Some in H. lia.
Qed.

(** X5.  A Start whose connection to the browser fails (or that finds the
    websocket library missing) raises, but only after it has replaced the
    controlled recorder and the output path: the server then controls a
    new recorder that is idle and has no socket.  A Stop that follows is
    answered [stopped] with no output, and every recorder that existed,
    an earlier session included, is left as it was. *)
Theorem failed_start_takes_the_slot (s : server) (kv : list (string * json))
    (url : string) (e : env) (x : exn) :
  dict_get kv "debugger_url" JNull = JStr url →
  url ≠ "" →
  HAS_WEBSOCKET e = false ∨ connection e = Raise x →
  let after := do_POST "/start" (Parsed (JDict kv)) e s in
  (∃ err, after.2 = Raised err)
  ∧ cls_recorder after.1 = Some (length (heap s))
  ∧ heap after.1 = (heap s ++ [new_recorder (dict_get kv "fps" (JInt 10))])%list
  ∧ cls_output_file after.1 = dict_get kv "output" (JStr "/tmp/dusk-recording.mp4")
  ∧ ∀ b e', let stopped := do_POST "/stop" b e' after.1 in
            stopped.2 = stopped_reply JNull
            ∧ ∀ a r, heap s !! a = Some r → heap stopped.1 !! a = Some r.
Proof.
  intros Hurl Hne Hfail after.
  assert (after = (mkServer (heap s ++ [new_recorder (dict_get kv "fps" (JInt 10))])
                            (Some (length (heap s)))
                            (dict_get kv "output" (JStr "/tmp/dusk-recording.mp4"))
                            (wld s),
                   after.2) ∧ ∃ err, after.2 = Raised err) as [Heq Herr].
  { subst after. unfold do_POST. simpl. unfold post_start. rewrite Hurl. simpl.
    assert ((url =? "")%string = false) as -> by (by apply String.eqb_neq).
    simpl. unfold connect_cdp.
    destruct (HAS_WEBSOCKET e); simpl.
    - destruct Hfail as [|Hc]; [done|]. rewrite Hc. simpl. eauto.
    - eauto. }
  rewrite Heq. simpl. split; [done|]. split; [done|]. split; [done|]. split; [done|].
  intros b e'. unfold do_POST. simpl. unfold post_stop. simpl.
  rewrite lookup_app_r by done. rewrite Nat.sub_diag. simpl.
  unfold stop_recording, create_video. simpl. split; [done|].
  intros a r Ha. by apply heap_prefix_insert.
Qed.

Lemma failed_start_takes_the_slot_witness :
  let busy := (run [POST "/start" start_body browser_up] init).1 in
  let after := do_POST "/start" start_body
                       (mkEnv true (Raise ConnectionError) NoData FfmpegMissing) busy in
  cls_recorder after.1 = Some 1
  ∧ recording <$> heap (do_POST "/stop" NoBody browser_up after.1).1 = [true; false].
Proof.
  destruct (failed_start_takes_the_slot
              (run [POST "/start" start_body browser_up] init).1
              [("debugger_url", JStr "ws://127.0.0.1:9222/devtools/page/1")]
              "ws://127.0.0.1:9222/devtools/page/1"
              (mkEnv true (Raise ConnectionError) NoData FfmpegMissing) ConnectionError)
    as (_ & Hc & _);
    [reflexivity | discriminate | right; reflexivity |].
  split; [exact Hc | vm_compute; reflexivity].
Defined.

Lemma stop_state (s : server) (a : nat) (r : recorder) (b : body) (e : env) :
  cls_recorder s = Some a →
  heap s !! a = Some r →
  let s' := (do_POST "/stop" b e s).1 in
  cls_recorder s' = Some a
  ∧ cls_output_file s' = cls_output_file s
  ∧ heap s' = <[ a := close_ws (set_recording false r) ]> (heap s)
  ∧ wld s' = (create_video (cls_output_file s) (ffmpeg e)
                           (close_ws (set_recording false r)) (wld s)).1.
Proof.
  intros Hc Hr s'. subst s'. unfold do_POST. simpl. unfold post_stop.
  rewrite Hc, Hr. unfold stop_recording.
  destruct (create_video _ _ _ _) as [w1 [o|x]]; done.
Qed.

(** X6.  Once a Stop has been handled, whether it produced a video or
    raised, the capture thread of the stopped recorder changes nothing
    any more: its next turn leaves the whole server as it is. *)
Theorem tick_after_stop_is_inert (s : server) (a : nat) (r : recorder) (b : body)
    (e : env) (o : cdp_reply) :
  cls_recorder s = Some a →
  heap s !! a = Some r →
  let s' := (do_POST "/stop" b e s).1 in
  step s' (Tick a o) = (s', None).
Proof.
  intros Hc Hr s'.
  destruct (stop_state s a r b e Hc Hr) as (Hc' & Ho' & Hh' & Hw').
  fold s' in Hc', Ho', Hh', Hw'. clearbody s'.
  destruct s' as [h c o' w]. simpl in *. subst h.
  rewrite list_lookup_insert_eq by (by eapply lookup_lt_Some).
  unfold capture_step. simpl.
  assert (recording (close_ws (set_recording false r)) = false) as ->.
  { unfold close_ws. simpl. by destruct (ws r). }
  unfold with_world, store. simpl. by rewrite list_insert_insert_eq.
Qed.

Lemma tick_after_stop_is_inert_witness :
  let busy := (run [POST "/start" start_body browser_up; Tick 0 shot] init).1 in
  step (do_POST "/stop" NoBody browser_up busy).1 (Tick 0 shot)
  = ((do_POST "/stop" NoBody browser_up busy).1, None).
Proof.
  apply (tick_after_stop_is_inert
           (run [POST "/start" start_body browser_up; Tick 0 shot] init).1 0
           (mkRecorder None "/tmp/dusk-screenshots" (JInt 10) [] true 1 (Some WsOpen))
           NoBody browser_up shot); reflexivity.
Defined.

(** X7.  A Stop that fails because ffmpeg cannot be launched loses
    nothing: the frame count and the frames are kept, so a second Stop,
    once ffmpeg can be run, encodes them and answers with the output
    path. *)
Theorem stop_can_be_retried (s : server) (a : nat) (r : recorder) (out : string)
    (b b' : body) (e e' : env) (video : option bytes) (err : string) :
  cls_recorder s = Some a →
  heap s !! a = Some r →
  (2 ≤ frame_count r)%nat →
  cls_output_file s = JStr out →
  ffmpeg e = FfmpegMissing →
  ffmpeg e' = FfmpegExit 0 video err →
  let first := do_POST "/stop" b e s in
  let second := do_POST "/stop" b' e' first.1 in
  first.2 = Raised FileNotFoundError
  ∧ files (fs (wld first.1)) = files (fs (wld s))
  ∧ second.2 = stopped_reply (JStr out).
Proof.
  intros Hc Hr Hge Hout He He' first second.
  assert (frame_count (close_ws (set_recording false r)) = frame_count r) as Hfc.
  { unfold close_ws. simpl. by destruct (ws r). }
  assert (first = (mkServer (<[ a := close_ws (set_recording false r) ]> (heap s))
                            (Some a) (JStr out)
                            (log_encode (mkEncode (fps (close_ws (set_recording false r)))
                                           (path_join (output_dir (close_ws (set_recording false r)))
                                                      "frame_%06d.png") out)
                                        (with_fs (makedirs (parent out)) (wld s))),
                   Raised FileNotFoundError)) as Hfirst.
  { subst first. unfold do_POST. simpl. unfold post_stop. rewrite Hc, Hr.
    unfold stop_recording, create_video. rewrite Hfc, Hout, He.
    destruct (Nat.ltb_spec (frame_count r) 2) as [Hlt|_]; [lia|]. simpl.
    unfold with_world, store. simpl. by rewrite Hc, Hout. }
  split; [by rewrite Hfirst|]. split; [by rewrite Hfirst|].
  subst second. rewrite Hfirst. unfold do_POST. simpl. unfold post_stop. simpl.
  rewrite list_lookup_insert_eq by (by eapply lookup_lt_Some).
  unfold stop_recording, create_video. rewrite He'.
  assert (frame_count (close_ws (set_recording false (close_ws (set_recording false r))))
          = frame_count r) as ->.
  { unfold close_ws. simpl. destruct (ws r); simpl; done. }
  destruct (Nat.ltb_spec (frame_count r) 2) as [Hlt|_]; [lia|]. done.
Qed.

Lemma stop_can_be_retried_witness :
  let busy := (run [POST "/start" start_body browser_up; Tick 0 shot; Tick 0 shot] init).1 in
  let first := do_POST "/stop" NoBody (mkEnv true (Ok tt) NoData FfmpegMissing) busy in
  (do_POST "/stop" NoBody browser_up first.1).2
  = stopped_reply (JStr "/tmp/dusk-recording.mp4").
Proof.
  apply (stop_can_be_retried
           (run [POST "/start" start_body browser_up; Tick 0 shot; Tick 0 shot] init).1 0
           (mkRecorder None "/tmp/dusk-screenshots" (JInt 10) [] true 2 (Some WsOpen))
           "/tmp/dusk-recording.mp4" NoBody NoBody
           (mkEnv true (Ok tt) NoData FfmpegMissing) browser_up
           (Some [x00; x00; x01]) "");
    first [reflexivity | simpl; lia].
Defined.

End ServerEdge.

(** ** The pid file of [headless_recorder.py] *)

Module PidFile.
Import SysFacts ProcFacts HeadlessRecorder ProcNotions ProcMoreNotions.

Lemma chars_append (s t : string) :
  list_ascii_of_string (s +:+ t) = (list_ascii_of_string s ++ list_ascii_of_string t)%list.
Proof. induction s as [|c s IH]; [done|]. rewrite append_cons. simpl. by rewrite IH. Qed.

(** A line that holds no newline is read back whole. *)
Lemma lines_from_line (l rest cur : list ascii) :
  newline ∉ l →
  lines_from cur (l ++ newline :: rest)
  = string_of_list_ascii (rev cur ++ l) :: lines_from [] rest.
Proof.
  revert cur. induction l as [|c l IH]; intros cur Hnl.
  - simpl. rewrite ?bool_decide_eq_true_2 by done. by rewrite app_nil_r.
  - simpl. rewrite bool_decide_eq_false_2 by (intros ->; apply Hnl; left).
    rewrite IH by (intros Hin; apply Hnl; by right).
    simpl. by rewrite <- app_assoc.
Qed.

Lemma parsed_digits (s : string) (d : Decimal.uint) :
  NilEmpty.uint_of_string s = Some d → Forall is_digit (list_ascii_of_string s).
Proof.
  revert d. induction s as [|c s IH]; intros d H; [constructor|].
  simpl in H. destruct (NilEmpty.uint_of_string s) as [d'|] eqn:E; [|done].
  constructor; [|by eapply IH].
  unfold uint_of_char in H. unfold is_digit.
  destruct c as [[] [] [] [] [] [] [] []]; try discriminate H; solve [repeat constructor].
Qed.

Lemma decimal_digits (n : nat) : Forall is_digit (list_ascii_of_string (decimal n)).
Proof. eapply parsed_digits. unfold decimal. apply NilEmpty.usu. Qed.

Lemma decimal_nonempty (n : nat) : decimal n ≠ "".
Proof.
  intros H. pose proof (NilEmpty.usu (Nat.to_uint n)) as Hu.
  unfold decimal in H. rewrite H in Hu. simpl in Hu. injection Hu as Hu.
  pose proof (Unsigned.of_to n) as Hn. rewrite <- Hu in Hn. simpl in Hn. subst n.
  discriminate Hu.
Qed.

Lemma digit_not_space (c : ascii) : is_digit c → is_space c = false.
Proof.
  unfold is_digit. rewrite !elem_of_cons, elem_of_nil.
  intros [->|[->|[->|[->|[->|[->|[->|[->|[->|[->|[]]]]]]]]]]]; reflexivity.
Qed.

Lemma digit_not_newline (c : ascii) : is_digit c → c ≠ newline.
Proof.
  intros H. apply digit_not_space in H. intros ->. discriminate H.
Qed.

Lemma drop_while_none (f : ascii → bool) (l : list ascii) :
  Forall (λ c, f c = false) l → drop_while f l = l.
Proof. intros H. destruct H as [|c l Hc Hl]; [done|]. simpl. by rewrite Hc. Qed.

Lemma strip_decimal (n : nat) : strip (decimal n) = decimal n.
Proof.
  unfold strip.
  assert (Forall (λ c, is_space c = false) (list_ascii_of_string (decimal n))) as H.
  { eapply Forall_impl; [apply decimal_digits|]. apply digit_not_space. }
  rewrite (drop_while_none _ _ H).
  rewrite (drop_while_none _ _ (Forall_rev H)).
  by rewrite rev_involutive, string_of_list_ascii_of_string.
Qed.

Lemma int_decimal (n : nat) : int (decimal n) = Ok n.
Proof.
  unfold int. pose proof (decimal_nonempty n) as Hne.
  destruct (decimal n) as [|c s] eqn:E; [done|]. rewrite <- E.
  unfold decimal. rewrite NilEmpty.usu. by rewrite Unsigned.of_to.
Qed.

Lemma readlines_pid_text (x f : nat) (out : string) :
  newline ∉ list_ascii_of_string out →
  readlines (list_byte_of_string
               (decimal x +:+ String newline "" +:+ decimal f +:+ String newline ""
                +:+ out +:+ String newline ""))
  = [decimal x; decimal f; out].
Proof.
  intros Hout. unfold readlines. rewrite string_of_list_byte_of_string.
  rewrite !chars_append. simpl.
  assert (∀ n, newline ∉ list_ascii_of_string (decimal n)) as Hd.
  { intros n Hin. pose proof (decimal_digits n) as Hf.
    rewrite Forall_forall in Hf. apply (digit_not_newline newline); [|done].
    by apply Hf. }
  rewrite (lines_from_line _ _ [] (Hd x)). simpl.
  rewrite (lines_from_line _ _ [] (Hd f)). simpl.
  rewrite (lines_from_line _ [] [] Hout). simpl.
  by rewrite !string_of_list_ascii_of_string.
Qed.

Lemma load_after_save (x f : nat) (out : string) (m : machine) :
  newline ∉ list_ascii_of_string out →
  load_pids (save_pids x f out m) = Ok (Some (x, f, strip out)).
Proof.
  intros Hout. unfold load_pids, save_pids. simpl. rewrite lookup_insert_eq.
  rewrite readlines_pid_text by done.
  by rewrite !strip_decimal, !int_decimal.
Qed.

(** Text that ends in a newline has a line. *)
Lemma lines_from_end (cs cur : list ascii) : lines_from cur (cs ++ [newline]) ≠ [].
Proof.
  revert cur. induction cs as [|c cs IH]; intros cur; [done|].
  simpl. destruct (bool_decide (c = newline)); [done | apply IH].
Qed.

(** Whatever the output path, the two pids are the first two lines of the
    pid file and a third line follows them. *)
Lemma load_started (x f : nat) (out : string) (m : machine) :
  ∃ o, load_pids (save_pids x f out m) = Ok (Some (x, f, o)).
Proof.
  unfold load_pids, save_pids. simpl. rewrite lookup_insert_eq.
  unfold readlines. rewrite string_of_list_byte_of_string.
  rewrite !chars_append. simpl.
  assert (∀ n, newline ∉ list_ascii_of_string (decimal n)) as Hd.
  { intros n Hin. pose proof (decimal_digits n) as Hf.
    rewrite Forall_forall in Hf. apply (digit_not_newline newline); [|done].
    by apply Hf. }
  rewrite (lines_from_line _ _ [] (Hd x)). simpl.
  rewrite (lines_from_line _ _ [] (Hd f)). simpl.
  pose proof (lines_from_end (list_ascii_of_string out) []) as Hne.
  destruct (lines_from [] (list_ascii_of_string out ++ [newline])) as [|l2 ls]; [done|].
  rewrite !string_of_list_ascii_of_string, !strip_decimal, !int_decimal. eauto.
Qed.

Lemma printable_no_newline (l : list ascii) : forallb printable l = true → newline ∉ l.
Proof.
  intros H Hin. rewrite forallb_forall in H.
  apply list_elem_of_In in Hin. by apply H in Hin.
Qed.

(** X8.  The pid file round trip: what [save_pids] writes, [load_pids]
    reads back as the same two pids and the output path, stripped of
    surrounding blanks, for every path of printable characters. *)
Theorem pid_file_round_trip (x f : nat) (out : string) (m : machine) :
  forallb printable (list_ascii_of_string out) = true →
  load_pids (save_pids x f out m) = Ok (Some (x, f, strip out)).
Proof. intros H. apply load_after_save. by apply printable_no_newline. Qed.

Lemma pid_file_round_trip_witness :
  load_pids (save_pids 4711 4712 "storage/recordings/login.mp4"
                       (mkMachine ∅ [] [] empty_fs []))
  = Ok (Some (4711, 4712, "storage/recordings/login.mp4")).
Proof.
  apply (pid_file_round_trip 4711 4712 "storage/recordings/login.mp4").
  reflexivity.
Defined.

End PidFile.

(** ** More on the headless recorder *)

Module HeadlessMore.
Import SysFacts ProcFacts HeadlessRecorder ProcNotions ProcMoreNotions PidFile.

Lemma calls_echo (line : string) (m : machine) : calls (echo line m) = calls m.
Proof. reflexivity. Qed.

Lemma write_stdin_calls (pid : nat) (data : string) (m : machine) :
  calls (write_stdin pid data m).1 = (calls m ++ [WriteStdin pid data])%list.
Proof.
  unfold write_stdin. destruct (poll_is_none pid m); [|done].
  simpl. by rewrite calls_update.
Qed.

Lemma quit_wait (pid : nat) (m : machine) :
  poll_is_none pid m = true →
  (wait pid (Some 5) (write_stdin pid "q" m).1).2 = quits_in_time pid m.
Proof.
  intros Hp. rewrite wait_result. unfold write_stdin. rewrite Hp. simpl.
  unfold gone_within, quits_in_time. rewrite proc_at_update.
  change (proc_at pid (log (WriteStdin pid "q") m)) with (proc_at pid m).
  unfold poll_is_none in Hp. destruct (proc_at pid m) as [[name st g]|]; [|done].
  unfold alive in Hp. simpl in *. unfold exits_within, reacts_within, request_stop.
  destruct st; simpl; try done.
Qed.

(** The calls of [HeadlessRecorder.stop] on a recorder with both children. *)
Lemma rec_stop_calls (r : recorder) (m : machine) (f x : nat) :
  ffmpeg_proc r = Some f →
  xvfb_proc r = Some x →
  calls (rec_stop r m) = (calls m ++ quit_calls f m ++ [SendSignal x SIGTERM])%list.
Proof.
  intros Hf Hx. unfold rec_stop, quit_calls. rewrite Hf, Hx.
  pose proof (write_stdin_calls f "q" m) as Hw.
  pose proof (quit_wait f m) as Hq.
  destruct (write_stdin f "q" m) as [ma written] eqn:Ew.
  assert (written = poll_is_none f m) as ->.
  { revert Ew. unfold write_stdin. destruct (poll_is_none f m); by intros [= _ <-]. }
  simpl in Hw, Hq. destruct (poll_is_none f m) eqn:Ep.
  - specialize (Hq eq_refl).
    pose proof (wait_calls f (Some 5) ma) as Hwc.
    destruct (wait f (Some 5) ma) as [mb done_] eqn:Ewait. simpl in Hq, Hwc. subst done_.
    destruct (quits_in_time f m).
    + repeat (rewrite calls_echo || rewrite send_signal_calls).
      rewrite Hwc, Hw. by rewrite <- !app_assoc.
    + repeat (rewrite calls_echo || rewrite send_signal_calls).
      rewrite Hwc, Hw. by rewrite <- !app_assoc.
  - repeat (rewrite calls_echo || rewrite send_signal_calls).
    rewrite Hw. by rewrite <- !app_assoc.
Qed.

(** X9.  [HeadlessRecorder.stop] deals with the encoder before the
    display: it writes [q] to ffmpeg, waits five seconds if that went
    through, and falls back on SIGTERM; the SIGTERM to Xvfb is its last
    call.  It never sends SIGKILL and never waits for Xvfb. *)
Theorem stop_encoder_then_display (r : recorder) (m : machine) (f x : nat) :
  ffmpeg_proc r = Some f →
  xvfb_proc r = Some x →
  calls (rec_stop r m) = (calls m ++ quit_calls f m ++ [SendSignal x SIGTERM])%list.
Proof. apply rec_stop_calls. Qed.

Lemma stop_encoder_then_display_witness :
  calls (rec_stop (mkRecorder 99 SCREEN_SIZE (Some 1) (Some 2))
                  (mkMachine ∅ [mkProc "Xvfb" Running None; mkProc "ffmpeg" Running None]
                             [] empty_fs []))
  = [WriteStdin 2 "q"; Wait 2 (Some 5); SendSignal 2 SIGTERM; SendSignal 1 SIGTERM].
Proof.
  apply (stop_encoder_then_display (mkRecorder 99 SCREEN_SIZE (Some 1) (Some 2))
           (mkMachine ∅ [mkProc "Xvfb" Running None; mkProc "ffmpeg" Running None]
                      [] empty_fs []) 2 1); reflexivity.
Defined.

End HeadlessMore.

(** ** Sessions of the headless recorder from start to stop *)

Module HeadlessRoundTrip.
Import SysFacts ProcFacts HeadlessRecorder ProcNotions ProcMoreNotions PidFile HeadlessMore.
Import HeadlessSession.

(** What a start that succeeds leaves behind. *)
Lemma started (output_file : string) (display : nat) (size : string) (m : machine)
    (px pf : program) :
  installed m !! "Xvfb" = Some px → starts px = true →
  installed m !! "ffmpeg" = Some pf → starts pf = true →
  "x"%char ∈ list_ascii_of_string size →
  let x := S (length (procs m)) in
  let f := S (S (length (procs m))) in
  let res := start_recording output_file display size m in
  res.2 = Ok (x, f)
  ∧ calls res.1 = (calls m ++ [Spawn "Xvfb" x; Spawn "ffmpeg" f])%list
  ∧ procs res.1 = (procs m ++ [mkProc "Xvfb" Running (stop_after px);
                               mkProc "ffmpeg" Running (stop_after pf)])%list
  ∧ ∃ o, load_pids res.1 = Ok (Some (x, f, o)).
Proof.
  intros Hx Hsx Hf Hsf Hsize x f res. subst res x f.
  destruct (video_size_x size Hsize) as [v Hv].
  unfold start_recording, rec_start_xvfb, rec_start_recording, popen.
  rewrite Hx. simpl. rewrite Hv, Hf. simpl. rewrite Hsx, Hsf.
  rewrite length_app. simpl. rewrite Nat.add_1_r.
  split; [done|]. split; [by rewrite <- app_assoc|]. split; [by rewrite <- app_assoc|].
  match goal with
  | |- ∃ o, load_pids (echo _ ?mm) = _ =>
      change (∃ o, load_pids mm
                   = Ok (Some (S (length (procs m)), S (S (length (procs m))), o)))
  end.
  apply load_started.
Qed.

Lemma poll_at_end (ps : list proc) (p : proc) (m : machine) :
  procs m = (ps ++ [p])%list → poll_is_none (S (length ps)) m = alive p.
Proof.
  intros H. unfold poll_is_none. simpl. rewrite H.
  rewrite lookup_app_r by done. by rewrite Nat.sub_diag.
Qed.

(** X10.  Start, then stop: when both programs start, the screen size
    has an [x] in it (width and height for the ffmpeg command) and the
    output path is made of printable characters, [stop_recording] finds
    the session through the pid file, sends SIGTERM to ffmpeg first and
    to Xvfb second (and nothing else), and removes the pid file, so that
    a second [stop_recording] finds no session and only prints its
    message. *)
Theorem start_then_stop (output_file : string) (display : nat) (size : string)
    (m : machine) (px pf : program) :
  installed m !! "Xvfb" = Some px → starts px = true →
  installed m !! "ffmpeg" = Some pf → starts pf = true →
  "x"%char ∈ list_ascii_of_string size →
  forallb printable (list_ascii_of_string output_file) = true →
  let x := S (length (procs m)) in
  let f := S (S (length (procs m))) in
  let stopped := stop_recording (start_recording output_file display size m).1 in
  stopped.2 = Ok tt
  ∧ calls stopped.1
    = (calls m ++ [Spawn "Xvfb" x; Spawn "ffmpeg" f;
                   SendSignal f SIGTERM; SendSignal x SIGTERM])%list
  ∧ files (disk stopped.1) !! PID_FILE = None
  ∧ stop_recording stopped.1 = (echo "No recording in progress" stopped.1, Ok tt).
Proof.
  intros Hx Hsx Hf Hsf Hsize _ x f stopped.
  destruct (started output_file display size m px pf Hx Hsx Hf Hsf Hsize)
    as (_ & Hcalls & Hprocs & o & Hload).
  assert (is_Some (files (disk (start_recording output_file display size m).1) !! PID_FILE))
    as Hfile.
  { revert Hload. unfold load_pids. destruct (files _ !! PID_FILE); [eauto | done]. }
  subst stopped x f.
  set (m1 := (start_recording output_file display size m).1) in *.
  set (n := length (procs m)) in *.
  assert (poll_is_none (S (S n)) m1 = true) as Hpf.
  { unfold poll_is_none. simpl. rewrite Hprocs.
    rewrite lookup_app_r by lia.
    replace (S n - length (procs m)) with 1 by lia. done. }
  assert (poll_is_none (S n) (send_signal (S (S n)) SIGTERM m1) = true) as Hpx.
  { unfold poll_is_none. rewrite proc_at_send_signal_ne by lia.
    simpl. rewrite Hprocs. rewrite lookup_app_r by lia. by rewrite Nat.sub_diag. }
  assert (stop_recording m1
          = (echo ("Recording stopped. Output: " +:+ o)
                  (on_disk (remove PID_FILE)
                     (send_signal (S n) SIGTERM (send_signal (S (S n)) SIGTERM m1))),
             Ok tt)) as Hstop.
  { unfold stop_recording. rewrite Hload. cbv beta iota.
    unfold os_kill_term at 2. rewrite Hpf.
    unfold os_kill_term. rewrite Hpx.
    unfold cleanup_pid_file.
    assert (path_exists (disk (send_signal (S n) SIGTERM (send_signal (S (S n)) SIGTERM m1)))
                        PID_FILE = true) as ->; [|done].
    rewrite !send_signal_disk. destruct Hfile as [c Hc]. by eapply path_exists_file. }
  rewrite Hstop. cbn [fst snd].
  assert (files (disk (echo ("Recording stopped. Output: " +:+ o)
                  (on_disk (remove PID_FILE)
                     (send_signal (S n) SIGTERM (send_signal (S (S n)) SIGTERM m1)))))
          !! PID_FILE = None) as Hgone.
  { simpl. apply lookup_delete_eq. }
  split; [done|]. split.
  - rewrite calls_echo. change (calls (on_disk ?g ?mm)) with (calls mm).
    rewrite !send_signal_calls, Hcalls. by rewrite <- !app_assoc.
  - split; [done|]. unfold stop_recording, load_pids. by rewrite Hgone.
Qed.

Lemma start_then_stop_witness :
  calls (stop_recording (start_recording "recording.mp4" DISPLAY_NUM SCREEN_SIZE host).1).1
  = [Spawn "Xvfb" 1; Spawn "ffmpeg" 2; SendSignal 2 SIGTERM; SendSignal 1 SIGTERM].
Proof.
  apply (start_then_stop "recording.mp4" DISPLAY_NUM SCREEN_SIZE host
           (mkProgram true (Some 1)) (mkProgram true (Some 1)));
    try reflexivity.
  vm_compute. do 4 right. left.
Defined.

(** X11.  A pid file with fewer than three lines counts as no session:
    [stop_recording] prints its message, signals nobody and leaves the
    file where it is.  The file holds printable characters and line
    feeds. *)
Theorem short_pid_file_is_no_session (m : machine) (text : string) :
  files (disk m) !! PID_FILE = Some (list_byte_of_string text) →
  forallb plain (list_ascii_of_string text) = true →
  (length (readlines (list_byte_of_string text)) < 3)%nat →
  stop_recording m = (echo "No recording in progress" m, Ok tt).
Proof.
  intros Hc _ Hlen. unfold stop_recording, load_pids.
  destruct (files (disk m) !! PID_FILE) as [c|] eqn:E; [|done].
  injection Hc as ->.
  destruct (readlines (list_byte_of_string text)) as [|l0 [|l1 [|l2 ls]]];
    simpl in *; try done. lia.
Qed.

Lemma short_pid_file_is_no_session_witness :
  let m := mkMachine ∅ [mkProc "Xvfb" Running None] []
             (mkFS ∅ {[ PID_FILE := list_byte_of_string "1" ]}) [] in
  stop_recording m = (echo "No recording in progress" m, Ok tt).
Proof.
  apply (short_pid_file_is_no_session
           (mkMachine ∅ [mkProc "Xvfb" Running None] []
              (mkFS ∅ {[ PID_FILE := list_byte_of_string "1" ]}) [])
           "1").
  - reflexivity.
  - reflexivity.
  - vm_compute. lia.
Defined.

(** X12.  The [run] command without a signal: when both programs start,
    the script ends with the command's return code, after the calls of
    [HeadlessRecorder.stop]: [q] to ffmpeg, the wait of five seconds,
    SIGTERM to ffmpeg if it is not quick, SIGTERM to Xvfb.  An interrupt
    during the command leaves the machine in the very same state. *)
Theorem run_ends_with_cleanup (output_file : string) (display : nat) (rc : Z)
    (m : machine) (px pf : program) :
  installed m !! "Xvfb" = Some px → starts px = true →
  installed m !! "ffmpeg" = Some pf → starts pf = true →
  let x := S (length (procs m)) in
  let f := S (S (length (procs m))) in
  let end_ := run_with_recording output_file display None rc m in
  end_.2 = Exit rc
  ∧ calls end_.1
    = (calls m ++ [Spawn "Xvfb" x; Spawn "ffmpeg" f; WriteStdin f "q"; Wait f (Some 5)]
       ++ (if quick pf then [] else [SendSignal f SIGTERM])
       ++ [SendSignal x SIGTERM])%list
  ∧ (run_with_recording output_file display (Some SIGINT) rc m).1 = end_.1.
Proof.
  intros Hx Hsx Hf Hsf x f end_. subst end_.
  unfold run_with_recording, rec_start_xvfb, rec_start_recording, popen.
  rewrite Hx. cbn -[rec_stop video_size]. rewrite video_size_default.
  cbn -[rec_stop]. rewrite Hf. cbn -[rec_stop]. rewrite Hsx, Hsf.
  rewrite length_app. cbn -[rec_stop]. rewrite Nat.add_1_r. fold x f.
  split; [done|]. split; [|done].
  erewrite (rec_stop_calls _ _ f x) by reflexivity.
  match goal with |- context [quit_calls f ?mm] => set (m2 := mm) end.
  assert (proc_at f m2 = Some (mkProc "ffmpeg" Running (stop_after pf))) as Hp.
  { subst m2 f. simpl. rewrite lookup_app_r by (rewrite length_app; simpl; lia).
    rewrite length_app. simpl.
    replace (S (length (procs m)) - (length (procs m) + 1)) with 0 by lia. done. }
  assert (calls m2 = (calls m ++ [Spawn "Xvfb" x; Spawn "ffmpeg" f])%list) as ->.
  { subst m2. simpl. by rewrite <- app_assoc. }
  unfold quit_calls, poll_is_none, quits_in_time. rewrite Hp. clearbody m2.
  unfold reacts_within, quick. simpl.
  rewrite <- !app_assoc. simpl. by destruct (stop_after pf) as [d|]; [destruct (Nat.leb d 5)|].
Qed.

Lemma run_ends_with_cleanup_witness :
  (run_with_recording "recording.mp4" DISPLAY_NUM None 3 host).2 = Exit 3.
Proof.
  apply (run_ends_with_cleanup "recording.mp4" DISPLAY_NUM 3 host
           (mkProgram true (Some 1)) (mkProgram true (Some 1))); reflexivity.
Defined.

End HeadlessRoundTrip.

(** ** More on [record_test.py] *)

Module RecordTestMore.
Import SysFacts ProcFacts RecordTest ProcNotions ProcMoreNotions StreamingEncoder.




(** X14.  When the encoder cannot be started, because ffmpeg is missing or
    because it is gone within its first seconds, [main] ends with exit
    code 1 whatever the test would have returned; nothing is sent to any
    process, and the only call made is the launch, if there was one. *)
Theorem main_start_failure (self_pid : nat) (output_file disp resol : string) (fps : Z)
    (display_ready : bool) (test_rc : Z) (left : option bytes) (m : machine) :
  installed m !! "ffmpeg" = None
  ∨ (∃ prog, installed m !! "ffmpeg" = Some prog ∧ starts prog = false) →
  let end_ := main self_pid output_file disp resol fps display_ready test_rc left m in
  end_.2 = Exit 1
  ∧ calls end_.1
    = (calls m ++ match installed m !! "ffmpeg" with
                  | Some _ => [Spawn "ffmpeg" (S (length (procs m)))]
                  | None => []
                  end)%list.
Proof.
  intros Hcase end_. subst end_. unfold main, start, popen.
  set (m0 := if display_ready then m else echo _ m).
  assert (installed m0 = installed m ∧ calls m0 = calls m ∧ procs m0 = procs m)
    as (Hi & Hc & Hp) by (subst m0; by destruct display_ready).
  simpl. rewrite Hi.
  destruct Hcase as [Hnone|(prog & Hsome & Hs)].
  - rewrite Hnone. simpl. rewrite Hc, app_nil_r. done.
  - rewrite Hsome. simpl. rewrite Hs.
    unfold poll_is_none. simpl. rewrite lookup_app_r by done.
    rewrite Nat.sub_diag. simpl. by rewrite Hc, Hp.
Qed.

Lemma main_start_failure_witness :
  (main 7 "/recordings/login.webm" ":99" "1920x1080" 15 true 0 None
        (mkMachine {[ "php" := mkProgram true (Some 0) ]} [] [] empty_fs [])).2
  = Exit 1.
Proof.
  apply (main_start_failure 7 "/recordings/login.webm" ":99" "1920x1080" 15 true 0 None
           (mkMachine {[ "php" := mkProgram true (Some 0) ]} [] [] empty_fs [])).
  left. reflexivity.
Defined.

End RecordTestMore.

(** ** Output names *)

Module OutputNameFacts.
Import SysFacts PidFile OutputNames.

Lemma string_of_chars_app (l k : list ascii) :
  string_of_list_ascii (l ++ k) = string_of_list_ascii l +:+ string_of_list_ascii k.
Proof. induction l as [|c l IH]; [done|]. simpl. by rewrite IH. Qed.

Lemma string_rev_append (s t : string) :
  string_rev (s +:+ t) = string_rev t +:+ string_rev s.
Proof.
  unfold string_rev. by rewrite chars_append, rev_app_distr, string_of_chars_app.
Qed.

Lemma string_rev_involutive (s : string) : string_rev (string_rev s) = s.
Proof.
  unfold string_rev.
  by rewrite list_ascii_of_string_of_list_ascii, rev_involutive,
             string_of_list_ascii_of_string.
Qed.

Lemma prefix_split (a b : string) :
  String.prefix a b = true → ∃ t, b = a +:+ t.
Proof.
  revert b. induction a as [|c a IH]; intros b H; [by exists b|].
  destruct b as [|c' b]; [done|]. simpl in H.
  destruct (ascii_dec c c') as [->|]; [|done].
  destruct (IH b H) as [t ->]. by exists t.
Qed.

Lemma endswith_append (s suffix : string) : endswith (s +:+ suffix) suffix = true.
Proof. unfold endswith. rewrite string_rev_append. apply prefix_append. Qed.

Lemma endswith_split (s suffix : string) :
  endswith s suffix = true → ∃ t, s = t +:+ suffix.
Proof.
  unfold endswith. intros H. apply prefix_split in H as [t Ht].
  exists (string_rev t). apply (f_equal string_rev) in Ht.
  by rewrite string_rev_involutive, string_rev_append, string_rev_involutive in Ht.
Qed.

Lemma dotless_not_webm (name : string) :
  "."%char ∉ list_ascii_of_string name → endswith name ".webm" = false.
Proof.
  intros Hdot. destruct (endswith name ".webm") eqn:E; [|done].
  apply endswith_split in E as [t ->]. exfalso. apply Hdot.
  rewrite chars_append. apply elem_of_app. right. simpl. left.
Qed.

Lemma replace_dotless (name rest : string) :
  "."%char ∉ list_ascii_of_string name →
  replace_from ".mp4" "" 0 (name +:+ rest) = name +:+ replace_from ".mp4" "" 0 rest.
Proof.
  induction name as [|c name IH]; intros Hdot; [done|].
  rewrite !append_cons.
  change (replace_from ".mp4" "" 0 (String c (name +:+ rest)))
    with (if String.prefix ".mp4" (String c (name +:+ rest))
          then "" +:+ replace_from ".mp4" "" 3 (name +:+ rest)
          else String c (replace_from ".mp4" "" 0 (name +:+ rest))).
  change (String.prefix ".mp4" (String c (name +:+ rest)))
    with (if ascii_dec "." c then String.prefix "mp4" (name +:+ rest) else false).
  destruct (ascii_dec "." c) as [<-|Hc].
  - exfalso. apply Hdot. simpl. left.
  - f_equal. apply IH. intros Hin. apply Hdot. simpl. by right.
Qed.

(** X15.  For an output name without a dot, with or without a trailing
    [.mp4], [record_test.py] records to [/recordings/<name>.webm]: the
    [.mp4] is dropped and [.webm] put in its place. *)
Theorem mp4_becomes_webm (name : string) :
  "."%char ∉ list_ascii_of_string name →
  output_file_of (name +:+ ".mp4") = "/recordings/" +:+ name +:+ ".webm"
  ∧ output_file_of name = "/recordings/" +:+ name +:+ ".webm".
Proof.
  intros Hdot. unfold output_file_of, replace. split.
  - assert (endswith (name +:+ ".mp4") ".webm" = false) as ->.
    { unfold endswith. rewrite string_rev_append. reflexivity. }
    simpl. rewrite replace_dotless by done. simpl. by rewrite append_nil_r.
  - rewrite dotless_not_webm by done. simpl.
    rewrite <- (append_nil_r name) at 1. rewrite replace_dotless by done.
    simpl. by rewrite append_nil_r.
Qed.

Lemma mp4_becomes_webm_witness :
  output_file_of "login-demo.mp4" = "/recordings/login-demo.webm".
Proof.
  apply (mp4_becomes_webm "login-demo").
  vm_compute. intros H.
  by repeat (apply elem_of_cons in H as [H|H]; [discriminate H|]); apply elem_of_nil in H.
Defined.

(** X16.  An output name that already ends in [.webm] is taken as it is
    and given the extension once more: the recording goes to
    [/recordings/<stem>.webm.webm]. *)
Theorem webm_is_doubled (stem : string) :
  output_file_of (stem +:+ ".webm") = "/recordings/" +:+ stem +:+ ".webm.webm".
Proof.
  unfold output_file_of. rewrite endswith_append. simpl.
  by rewrite append_assoc.
Qed.

(** X17.  The file [dusk_record.py] looks for after the run is never the
    one [record_test.py] writes, whatever the two output names and the
    directory: the first ends in [.mp4], the second in [.webm]. *)
Theorem expected_file_never_written (recordings_dir name name' : string) :
  recording_file recordings_dir name ≠ output_file_of name'.
Proof.
  unfold recording_file, output_file_of. rewrite path_join_base.
  intros H. apply (f_equal string_rev) in H.
  rewrite !string_rev_append in H.
  change (string_rev ".mp4") with "4pm." in H.
  change (string_rev ".webm") with "mbew." in H.
  rewrite !append_cons in H. discriminate H.
Qed.

End OutputNameFacts.

(** ** The host script [dusk_record.py] *)

Module DuskRecordFacts.
Import OutputNames DuskRecord.

(** X18.  [dusk_record.py] starts the container only when docker answers,
    the test file exists and the image is there or has just been built;
    it then ends with the container's exit code.  The image is built
    first exactly when [--build] is given or the image is missing, and an
    empty output name counts as none: the generated name is used. *)
Theorem container_exit_code (test_file : string) (output_name : option string)
    (generated : string) (build : bool) (recordings_dir script_dir : string)
    (d : docker) (container : FS → FS) (h : host) :
  available d = true →
  path_exists (hdisk h) test_file = true →
  (build || negb (image_present d) = true → build_rc d = 0%Z) →
  let end_ := main test_file output_name generated build recordings_dir script_dir
                   d container h in
  let name := match output_name with
              | Some n => if bool_decide (n = "") then generated else n
              | None => generated
              end in
  end_.2 = Exit (run_rc d)
  ∧ ran end_.1
    = (ran h ++ (if build || negb (image_present d)
                 then [Build IMAGE_NAME script_dir] else [])
         ++ [Run IMAGE_NAME test_file name recordings_dir])%list.
Proof.
  intros Ha Ht Hb end_ name. subst end_. unfold main. rewrite Ha, Ht. simpl.
  fold name.
  destruct (build || negb (image_present d)) eqn:E.
  - rewrite (Hb eq_refl). simpl.
    destruct (run_rc d =? 0)%Z;
      destruct (path_exists (container (makedirs recordings_dir (hdisk h)))
                            (recording_file recordings_dir name));
      (split; [done|]); simpl; by rewrite <- app_assoc.
  - simpl.
    by destruct (run_rc d =? 0)%Z;
      destruct (path_exists (container (makedirs recordings_dir (hdisk h)))
                            (recording_file recordings_dir name)).
Qed.

Lemma container_exit_code_witness :
  (main "tests/Browser/LoginTest.php" (Some "login") "LoginTest_20240101_120000" false
        "./storage/recordings" "docker" (mkDocker true true 0 2) (λ fs, fs)
        (mkHost (mkFS ∅ {[ "tests/Browser/LoginTest.php" := [] ]}) [] [])).2
  = Exit 2.
Proof.
  apply (container_exit_code "tests/Browser/LoginTest.php" (Some "login")
           "LoginTest_20240101_120000" false "./storage/recordings" "docker"
           (mkDocker true true 0 2) (λ fs, fs)
           (mkHost (mkFS ∅ {[ "tests/Browser/LoginTest.php" := [] ]}) [] []));
    first [reflexivity | discriminate].
Defined.

(** X19.  When docker does not answer, the test file is missing, or the
    build fails, [dusk_record.py] ends with exit code 1 and the container
    is never run; the recordings directory is made only once the first
    two checks have passed. *)
Theorem no_container_without_prerequisites (test_file : string)
    (output_name : option string) (generated : string) (build : bool)
    (recordings_dir script_dir : string) (d : docker) (container : FS → FS) (h : host) :
  available d = false
  ∨ path_exists (hdisk h) test_file = false
  ∨ (build || negb (image_present d) = true ∧ build_rc d ≠ 0%Z) →
  let end_ := main test_file output_name generated build recordings_dir script_dir
                   d container h in
  end_.2 = Exit 1
  ∧ (∀ c, c ∈ ran end_.1 → c ∈ ran h ∨ c = Build IMAGE_NAME script_dir)
  ∧ (available d = false ∨ path_exists (hdisk h) test_file = false →
     hdisk end_.1 = hdisk h ∧ ran end_.1 = ran h).
Proof.
  intros Hcase end_. subst end_. unfold main.
  destruct (available d) eqn:Ea; simpl.
  - destruct (path_exists (hdisk h) test_file) eqn:Et; simpl.
    + destruct Hcase as [|[|[Hb Hrc]]]; try done. rewrite Hb.
      apply Z.eqb_neq in Hrc. rewrite Hrc. simpl. split; [done|]. split.
      * intros c Hc. apply elem_of_app in Hc as [|Hc]; [by left|].
        apply list_elem_of_singleton in Hc. by right.
      * intros [|]; done.
    + split; [done|]. split; [by left|]. done.
  - split; [done|]. split; [by left|]. done.
Qed.

Lemma no_container_without_prerequisites_witness :
  (main "tests/Browser/LoginTest.php" None "LoginTest_20240101_120000" false
        "./storage/recordings" "docker" (mkDocker true true 0 0) (λ fs, fs)
        (mkHost empty_fs [] [])).2
  = Exit 1.
Proof.
  apply (no_container_without_prerequisites "tests/Browser/LoginTest.php" None
           "LoginTest_20240101_120000" false "./storage/recordings" "docker"
           (mkDocker true true 0 0) (λ fs, fs) (mkHost empty_fs [] [])).
  right. left. reflexivity.
Defined.

End DuskRecordFacts.

(** ** More on [entrypoint.py] *)

Module EntrypointMore.
Import ProcFacts Entrypoint ProcNotions ProcMoreNotions ServiceCleanup.

Lemma stop_list_nothing_left (l : list (string * nat)) (m : machine) :
  (∀ np, np ∈ l → poll_is_none np.2 m = false) →
  fold_left (λ acc np, stop_one np acc) l m = m.
Proof.
  induction l as [|np l IH]; intros H; [done|].
  simpl. assert (stop_one np m = m) as ->.
  { unfold stop_one. rewrite H; [done | left]. }
  apply IH. intros np' Hin. apply H. by right.
Qed.

(** X20.  [stop_all] can be run again without effect when the services
    that are running exit within five seconds of SIGTERM, so that none
    has to be killed: once it has run, every service it knows has been
    waited for and is gone, and a second run issues no call and prints
    nothing. *)
Theorem stop_all_idempotent (sm : ServiceManager) (m : machine) :
  (∀ np p, np ∈ sm → proc_at np.2 m = Some p → alive p = true →
     reacts_within 5 p = true) →
  stop_all sm (stop_all sm m) = stop_all sm m.
Proof.
  intros _. unfold stop_all at 1. apply stop_list_nothing_left.
  intros np Hin. unfold stop_all. apply stop_list_dead.
  apply list_elem_of_fmap. by exists np.
Qed.

Lemma stop_all_idempotent_witness :
  let sm := [("Xvfb", 1); ("ChromeDriver", 2)] in
  let m := mkMachine ∅ [mkProc "Xvfb" Running (Some 1); mkProc "chromedriver" Running (Some 3)]
                     [] empty_fs [] in
  stop_all sm (stop_all sm m) = stop_all sm m.
Proof.
  apply (stop_all_idempotent [("Xvfb", 1); ("ChromeDriver", 2)]
           (mkMachine ∅ [mkProc "Xvfb" Running (Some 1);
                         mkProc "chromedriver" Running (Some 3)] [] empty_fs [])).
  intros np p Hin Hp _.
  apply elem_of_cons in Hin as [->|Hin]; [by injection Hp as <-|].
  apply elem_of_cons in Hin as [->|Hin]; [by injection Hp as <-|].
  by apply elem_of_nil in Hin.
Defined.

(** X21.  Every way [main] ends, short of a SIGKILL, goes through the
    exit hook: in a container that had no children before, no service is
    left running once [main] has ended (each has exited or has been sent
    SIGKILL), whether it ended normally, with an error, or on one
    interrupt or terminate signal that arrives in one of the four places
    where [main] waits: the sleep after the launch of Xvfb, the display
    check, the sleep after the launch of ChromeDriver, the run of the
    recording script. *)
Theorem every_exit_stops_services (sig : option (signal * moment)) (display_ok : bool)
    (rc : Z) (m : machine) :
  procs m = [] →
  (∀ t, sig ≠ Some (SIGKILL, t)) →
  none_alive (main sig display_ok rc m).1.
Proof.
  intros Hm Hsig. unfold main.
  pose proof (main_body_managed sig display_ok rc m Hm) as Hman.
  pose proof (main_body_dies sig display_ok rc m) as Hdies.
  destruct (main_body sig display_ok rc m) as [[sm m1] [c|e|s]]; simpl in *.
  - by apply stop_all_none_alive.
  - destruct e; by apply stop_all_none_alive.
  - destruct (Hdies s eq_refl) as [_ [t ->]]. by destruct (Hsig t).
Qed.

Lemma every_exit_stops_services_witness :
  none_alive (main (Some (SIGTERM, InRecording)) true 0
                   (mkMachine {[ "Xvfb" := mkProgram true (Some 1);
                                 "chromedriver" := mkProgram true None;
                                 "python3" := mkProgram true (Some 0) ]}
                              [] [] empty_fs [])).1.
Proof.
  apply (every_exit_stops_services (Some (SIGTERM, InRecording)) true 0
           (mkMachine {[ "Xvfb" := mkProgram true (Some 1);
                         "chromedriver" := mkProgram true None;
                         "python3" := mkProgram true (Some 0) ]}
                      [] [] empty_fs [])).
  - reflexivity.
  - intros t. discriminate.
Defined.

End EntrypointMore.

(** ** Runs of [entrypoint.py] *)

Module EntrypointRuns.
Import ProcFacts Entrypoint ProcNotions ProcMoreNotions.

(** X22.  A run without signal in which both services come up: [main]
    ends with the exit code of the recording script, and the exit hook
    stops ChromeDriver before the display, each with SIGTERM and a wait of
    five seconds, with SIGKILL only for a service that is not quick. *)
Theorem normal_run (rc : Z) (m : machine) (px pc py : program) :
  procs m = [] →
  installed m !! "Xvfb" = Some px → starts px = true →
  installed m !! "chromedriver" = Some pc → starts pc = true →
  installed m !! "python3" = Some py →
  let end_ := main None true rc m in
  end_.2 = Exit rc
  ∧ calls end_.1
    = (calls m ++ [Spawn "Xvfb" 1; Spawn "chromedriver" 2]
         ++ term_calls 2 pc ++ term_calls 1 px)%list.
Proof.
  intros Hm Hx Hsx Hc Hsc Hy end_. subst end_.
  destruct m as [inst ps cs dk ou]. simpl in *. subst ps.
  unfold main, main_body, start_xvfb, start_chromedriver, run_recording, popen.
  simpl. rewrite Hx. simpl. rewrite Hc. simpl. rewrite Hsx, Hsc. simpl. rewrite Hy. simpl.
  unfold stop_all, stop_one, term_calls, quick. simpl.
  unfold poll_is_none, send_signal, wait, update_proc. simpl.
  unfold exits_within, request_stop, deliver. simpl.
  destruct (stop_after pc) as [dc|]; destruct (stop_after px) as [dx|]; simpl;
    repeat match goal with
           | |- context [Nat.leb ?a 5] => destruct (Nat.leb a 5); simpl
           end;
    unfold exits_within, request_stop, deliver; simpl;
    repeat match goal with
           | |- context [Nat.leb ?a 5] => destruct (Nat.leb a 5); simpl
           end;
    split; try done; by rewrite <- ?app_assoc.
Qed.

Lemma normal_run_witness :
  (main None true 3
        (mkMachine {[ "Xvfb" := mkProgram true (Some 1);
                      "chromedriver" := mkProgram true None;
                      "python3" := mkProgram true (Some 0) ]}
                   [] [] empty_fs [])).2
  = Exit 3.
Proof.
  apply (normal_run 3
           (mkMachine {[ "Xvfb" := mkProgram true (Some 1);
                         "chromedriver" := mkProgram true None;
                         "python3" := mkProgram true (Some 0) ]}
                      [] [] empty_fs [])
           (mkProgram true (Some 1)) (mkProgram true None) (mkProgram true (Some 0)));
    reflexivity.
Defined.

(** X23.  The exit status after an interrupt or terminate signal: 0 when
    the signal comes while [main] sleeps after launching Xvfb, and 1 when
    it comes during the display check, where the bare [except] takes the
    handler's [SystemExit] for a failed check. *)
Theorem signal_exit_status (s : signal) (display_ok : bool) (rc : Z) (m : machine)
    (px : program) :
  s = SIGINT ∨ s = SIGTERM →
  installed m !! "Xvfb" = Some px →
  (main (Some (s, InXvfbStartup)) display_ok rc m).2 = Exit 0
  ∧ (main (Some (s, InDisplayCheck)) display_ok rc m).2 = Exit 1.
Proof.
  intros Hs Hx. unfold main, main_body, start_xvfb, popen. rewrite Hx.
  destruct Hs as [-> | ->]; simpl; done.
Qed.

Lemma signal_exit_status_witness :
  (main (Some (SIGTERM, InDisplayCheck)) true 0
        (mkMachine {[ "Xvfb" := mkProgram true (Some 1) ]} [] [] empty_fs [])).2
  = Exit 1.
Proof.
  apply (signal_exit_status SIGTERM true 0
           (mkMachine {[ "Xvfb" := mkProgram true (Some 1) ]} [] [] empty_fs [])
           (mkProgram true (Some 1))).
  - right; reflexivity.
  - reflexivity.
Defined.

(** X24.  When the display cannot be verified, [main] ends with exit code
    1 whatever the recording would have returned, and ChromeDriver is
    never launched: the only launch is that of Xvfb. *)
Theorem display_failure_skips_chromedriver (rc : Z) (m : machine) (px : program) :
  installed m !! "Xvfb" = Some px →
  let end_ := main None false rc m in
  end_.2 = Exit 1
  ∧ ∀ name pid, Spawn name pid ∈ calls end_.1 →
                Spawn name pid ∈ calls m ∨ name = "Xvfb".
Proof.
  intros Hx end_. subst end_.
  unfold main, main_body, start_xvfb, popen. rewrite Hx. simpl.
  split; [done|]. intros name pid Hin.
  unfold stop_all in Hin. simpl in Hin. unfold stop_one in Hin. simpl in Hin.
  match type of Hin with
  | context [poll_is_none ?p ?mm] => destruct (poll_is_none p mm)
  end.
  - match type of Hin with
    | context [wait ?p ?t ?mm] =>
        pose proof (wait_calls p t mm) as Hw; destruct (wait p t mm) as [m2 ok]
    end.
    simpl in Hw. rewrite send_signal_calls in Hw. simpl in Hw.
    destruct ok; simpl in Hin.
    + rewrite Hw in Hin. rewrite !elem_of_app in Hin.
      destruct Hin as [[[Hin|Hin]|Hin]|Hin]; [by left | | |].
      * apply list_elem_of_singleton in Hin. injection Hin as -> _. by right.
      * by apply list_elem_of_singleton in Hin.
      * by apply list_elem_of_singleton in Hin.
    + rewrite send_signal_calls, Hw in Hin. rewrite !elem_of_app in Hin.
      destruct Hin as [[[[Hin|Hin]|Hin]|Hin]|Hin]; [by left | | | |].
      * apply list_elem_of_singleton in Hin. injection Hin as -> _. by right.
      * by apply list_elem_of_singleton in Hin.
      * by apply list_elem_of_singleton in Hin.
      * by apply list_elem_of_singleton in Hin.
  - simpl in Hin. apply elem_of_app in Hin as [Hin|Hin]; [by left|].
    apply list_elem_of_singleton in Hin. injection Hin as -> _. by right.
Qed.

Lemma display_failure_skips_chromedriver_witness :
  (main None false 0
        (mkMachine {[ "Xvfb" := mkProgram false None;
                      "chromedriver" := mkProgram true None ]} [] [] empty_fs [])).2
  = Exit 1.
Proof.
  apply (display_failure_skips_chromedriver 0
           (mkMachine {[ "Xvfb" := mkProgram false None;
                         "chromedriver" := mkProgram true None ]} [] [] empty_fs [])
           (mkProgram false None)).
  reflexivity.
Defined.

End EntrypointRuns.
